(** * Response classification and diagram rendering of the chat client

    A shallow embedding of [src/index.tsx]: the part of [handleFormSubmit]
    that runs on the streamed reply (accumulation, [JSON.parse], the fenced
    block regular expression, the dispatch on the parsed value),
    [getTerminalCoords], the [draw*] symbol functions and [renderDiagram];
    then the exceptions of the two rendering calls on a value that was not
    checked, and the page around the reply ([addMessage], [displayError],
    [setFormState], the file selection, [handleImageGeneration] and the whole
    of [handleFormSubmit]).

    Conventions.
    - A JavaScript string is modelled by the Rocq [string] of its UTF-8
      bytes.  Every character the program inspects (the JSON punctuation,
      the fence, the dot of a reference, digits, signs) is ASCII, and an
      ASCII byte never occurs inside a multi-byte sequence, so searching and
      splitting on bytes agrees with searching and splitting on UTF-16 code
      units.
    - A JavaScript number is a rational, one of the two infinities, or NaN.
      A decimal literal too small for binary64 is zero and one too large is
      an infinity, as in JavaScript; the rounding to 53 significant bits and
      the sign of zero are not modelled.
    - [undefined] is [None]. *)

From Stdlib Require Import QArith Qabs ZArith NArith Ascii String List Lia.
From stdpp Require Import gmap strings list.

(** ** Characters and strings *)

Definition DQ : ascii := "034"%char.
Definition LF : ascii := "010"%char.
Definition BACKSLASH : ascii := "092"%char.

Definition code (c : ascii) : N := N_of_ascii c.

(** Test inputs are written with an apostrophe where the JavaScript text has a
    double quote: [js "{'a':1}"] is the text [{"a":1}]. *)
Fixpoint js (s : string) : string :=
  match s with
  | EmptyString => EmptyString
  | String c r => String (if (c =? "'")%char then DQ else c) (js r)
  end.

(** [strip p s] is [Some r] when [s = p +:+ r]. *)
Fixpoint strip (p s : string) : option string :=
  match p, s with
  | EmptyString, _ => Some s
  | String a p', String b s' => if (a =? b)%char then strip p' s' else None
  | String _ _, EmptyString => None
  end.

(** [String.prototype.split] with a one-character separator: the pieces between
    the separators, in order; never the empty array. *)
Fixpoint split (sep : ascii) (s : string) : list string :=
  match s with
  | EmptyString => [EmptyString]
  | String c r =>
      if (c =? sep)%char then EmptyString :: split sep r
      else match split sep r with
           | h :: t => String c h :: t
           | [] => [String c EmptyString]
           end
  end.

(** String concatenation of a list of fragments. *)
Definition concat_strings (l : list string) : string :=
  foldr String.append EmptyString l.

(** ** Numbers *)

Inductive number :=
| Finite (q : Q)
| PosInfinity
| NegInfinity
| NaN.

Definition num (z : Z) : number := Finite (inject_Z z).

Definition num_add (a b : number) : number :=
  match a, b with
  | NaN, _ | _, NaN => NaN
  | Finite p, Finite q => Finite (p + q)
  | PosInfinity, NegInfinity | NegInfinity, PosInfinity => NaN
  | PosInfinity, _ | _, PosInfinity => PosInfinity
  | NegInfinity, _ | _, NegInfinity => NegInfinity
  end.

Definition num_neg (a : number) : number :=
  match a with
  | Finite p => Finite (- p)
  | PosInfinity => NegInfinity
  | NegInfinity => PosInfinity
  | NaN => NaN
  end.

Definition num_sub (a b : number) : number :=
  match a, b with
  | NaN, _ | _, NaN => NaN
  | Finite p, Finite q => Finite (p - q)
  | PosInfinity, PosInfinity | NegInfinity, NegInfinity => NaN
  | PosInfinity, _ | _, NegInfinity => PosInfinity
  | NegInfinity, _ | _, PosInfinity => NegInfinity
  end.

(** Division by the literal [2], the only division of the program. *)
Definition num_half (a : number) : number :=
  match a with
  | Finite p => Finite (p / 2)
  | other => other
  end.

Definition isNaN (a : number) : bool :=
  match a with NaN => true | _ => false end.

Declare Scope js_scope.
Delimit Scope js_scope with js.
Bind Scope js_scope with number.
Notation "a + b" := (num_add a b) : js_scope.
Notation "a - b" := (num_sub a b) : js_scope.
Notation "- a" := (num_neg a) : js_scope.

(** The range of binary64 (ECMA-262, 6.1.6.1, the Number value for a real):
    a real of magnitude at most [2^-1075], half the least subnormal, rounds
    to zero, and one of magnitude at least [2^1024 - 2^970], half way past
    the greatest finite value, rounds to an infinity (at either bound the tie
    goes to the even neighbour, which is zero and the infinity).  In between
    the real is kept as it is. *)
Definition binary64 (q : Q) : number :=
  if Qle_bool (Qabs q) (1 # 2 ^ 1075) then Finite 0
  else if Qle_bool (inject_Z (2 ^ 1024 - 2 ^ 970)) (Qabs q) then
    if Qle_bool 0 q then PosInfinity else NegInfinity
  else Finite q.

(** The Number value of a decimal literal with sign [neg], digits [m] and
    decimal exponent [e]: the real [m * 10^e], in lowest terms, brought into
    the range of binary64. *)
Definition decimal (neg : bool) (m : N) (e : Z) : number :=
  let z := if neg then (- Z.of_N m)%Z else Z.of_N m in
  binary64 (Qred (if (0 <=? e)%Z then inject_Z (z * 10 ^ e)
                  else Qmake z (Z.to_pos (10 ^ (- e))))).

Definition digit_val (c : ascii) : option N :=
  let n := code c in
  if ((48 <=? n) && (n <=? 57))%N then Some (n - 48)%N else None.

(** Reads the longest run of decimal digits at the head of [s]: the number
    they denote after the digits [acc] already read, how many there were, and
    what follows them. *)
Fixpoint digits (acc : N) (n : nat) (s : string) : N * nat * string :=
  match s with
  | EmptyString => (acc, n, s)
  | String c r =>
      match digit_val c with
      | Some d => digits (acc * 10 + d)%N (S n) r
      | None => (acc, n, s)
      end
  end.

(** An optional exponent part [e], [E] followed by an optional sign and at
    least one digit; [None] when the text at [s] is not one. *)
Definition exponent_part (s : string) : option (Z * string) :=
  match s with
  | String c r =>
      if ((c =? "e") || (c =? "E"))%char then
        let '(eneg, r1) :=
          match r with
          | String sg r' =>
              if (sg =? "-")%char then (true, r')
              else if (sg =? "+")%char then (false, r')
              else (false, r)
          | EmptyString => (false, r)
          end in
        let '(e, k, r2) := digits 0 0 r1 in
        match k with
        | O => None
        | S _ => Some (if eneg then (- Z.of_N e)%Z else Z.of_N e, r2)
        end
      else None
  | EmptyString => None
  end.

(** *** [parseFloat] (ECMA-262, 19.2.4)

    The argument is converted to a string ([undefined] gives the text
    [undefined]), leading white space and line terminators are dropped, and
    the longest prefix that is a [StrDecimalLiteral] is evaluated; [NaN] when
    there is none. *)

Definition is_space1 (c : ascii) : bool :=
  let n := code c in
  ((n =? 9) || (n =? 10) || (n =? 11) || (n =? 12) || (n =? 13) || (n =? 32))%N.

(** U+00A0 in UTF-8. *)
Definition is_space2 (c1 c2 : ascii) : bool :=
  ((code c1 =? 194) && (code c2 =? 160))%N.

(** U+1680, U+2000..U+200A, U+2028, U+2029, U+202F, U+205F, U+3000 and
    U+FEFF in UTF-8. *)
Definition is_space3 (c1 c2 c3 : ascii) : bool :=
  let '(a, b, c) := (code c1, code c2, code c3) in
  ((a =? 225) && (b =? 154) && (c =? 128)
   || (a =? 226) && (b =? 128)
      && ((128 <=? c) && (c <=? 138) || (c =? 168) || (c =? 169) || (c =? 175))
   || (a =? 226) && (b =? 129) && (c =? 159)
   || (a =? 227) && (b =? 128) && (c =? 128)
   || (a =? 239) && (b =? 187) && (c =? 191))%N.

Fixpoint trimStart (s : string) : string :=
  match s with
  | String c1 r1 =>
      if is_space1 c1 then trimStart r1
      else match r1 with
           | String c2 r2 =>
               if is_space2 c1 c2 then trimStart r2
               else match r2 with
                    | String c3 r3 =>
                        if is_space3 c1 c2 c3 then trimStart r3 else s
                    | EmptyString => s
                    end
           | EmptyString => s
           end
  | EmptyString => s
  end.

Definition ToString (t : option string) : string :=
  match t with
  | Some s => s
  | None => "undefined"
  end.

Definition parseFloat (t : option string) : number :=
  let s := trimStart (ToString t) in
  let '(neg, s1) :=
    match s with
    | String sg r =>
        if (sg =? "-")%char then (true, r)
        else if (sg =? "+")%char then (false, r)
        else (false, s)
    | EmptyString => (false, s)
    end in
  match strip "Infinity" s1 with
  | Some _ => if neg then NegInfinity else PosInfinity
  | None =>
      let '(m, ni, r1) := digits 0 0 s1 in
      let '(m, nf, r2) :=
        match r1 with
        | String c r =>
            if (c =? ".")%char then digits m 0 r else (m, O, r1)
        | EmptyString => (m, O, r1)
        end in
      match (ni + nf)%nat with
      | O => NaN
      | S _ =>
          match exponent_part r2 with
          | Some (e, _) => decimal neg m (e - Z.of_nat nf)
          | None => decimal neg m (- Z.of_nat nf)
          end
      end
  end.

(** ** [JSON.parse] (ECMA-262, 25.5.1; ECMA-404) *)

Module JSON.

#[warnings="-register-all"]
Inductive value :=
| JNull
| JBool (b : bool)
| JNumber (n : number)
| JString (s : string)
| JArray (elements : list value)
| JObject (members : list (string * value)).

(** The outcome of a parser on a piece of text. *)
Inductive result (A : Type) :=
| Ok (a : A) (rest : string)
| SyntaxError
| OutOfFuel.
Arguments Ok {A} a rest.
Arguments SyntaxError {A}.
Arguments OutOfFuel {A}.

Notation "'do' ( x , r ) <- e ; k" :=
  (match e with
   | Ok x r => k
   | SyntaxError => SyntaxError
   | OutOfFuel => OutOfFuel
   end)
  (at level 10, x name, r name, e at level 100, k at level 200, only parsing).

Definition is_ws (c : ascii) : bool :=
  let n := code c in ((n =? 9) || (n =? 10) || (n =? 13) || (n =? 32))%N.

Fixpoint skip_ws (s : string) : string :=
  match s with
  | String c r => if is_ws c then skip_ws r else s
  | EmptyString => s
  end.

(** *** Numbers: an optional minus sign, [0] or a run of digits that does
    not start with [0], an optional fraction (a dot and at least one digit)
    and an optional exponent part. *)

Definition parse_number (s : string) : result number :=
  let '(neg, s1) :=
    match s with
    | String sg r => if (sg =? "-")%char then (true, r) else (false, s)
    | EmptyString => (false, s)
    end in
  match s1 with
  | EmptyString => SyntaxError
  | String c r =>
      match digit_val c with
      | None => SyntaxError
      | Some d =>
          let '(m, _, r1) :=
            if (d =? 0)%N then (0%N, 1%nat, r) else digits 0 0 s1 in
          let after_fraction (m : N) (nf : nat) (r2 : string) :=
            match r2 with
            | String c2 _ =>
                if ((c2 =? "e") || (c2 =? "E"))%char then
                  match exponent_part r2 with
                  | Some (e, r3) => Ok (decimal neg m (e - Z.of_nat nf)) r3
                  | None => SyntaxError
                  end
                else Ok (decimal neg m (- Z.of_nat nf)) r2
            | EmptyString => Ok (decimal neg m (- Z.of_nat nf)) r2
            end in
          match r1 with
          | String c1 r1' =>
              if (c1 =? ".")%char then
                let '(m', nf, r2) := digits m 0 r1' in
                match nf with
                | O => SyntaxError
                | S _ => after_fraction m' nf r2
                end
              else after_fraction m O r1
          | EmptyString => after_fraction m O r1
          end
      end
  end.

(** *** Strings

    The characters after the opening quote up to the closing one: each is a
    byte of the text taken as it is, or the code unit of a [\uXXXX] escape. *)

Definition hex_val (c : ascii) : option N :=
  let n := code c in
  if ((48 <=? n) && (n <=? 57))%N then Some (n - 48)%N
  else if ((65 <=? n) && (n <=? 70))%N then Some (n - 55)%N
  else if ((97 <=? n) && (n <=? 102))%N then Some (n - 87)%N
  else None.

Definition hex4 (a b c d : ascii) : option N :=
  match hex_val a, hex_val b, hex_val c, hex_val d with
  | Some x, Some y, Some z, Some w => Some (((x * 16 + y) * 16 + z) * 16 + w)%N
  | _, _, _, _ => None
  end.

Definition simple_escape (c : ascii) : option ascii :=
  if (c =? DQ)%char then Some DQ
  else if (c =? BACKSLASH)%char then Some BACKSLASH
  else if (c =? "/")%char then Some "/"%char
  else if (c =? "b")%char then Some "008"%char
  else if (c =? "f")%char then Some "012"%char
  else if (c =? "n")%char then Some "010"%char
  else if (c =? "r")%char then Some "013"%char
  else if (c =? "t")%char then Some "009"%char
  else None.

Definition push {A} (x : A) (m : result (list A)) : result (list A) :=
  do (l, r) <- m; Ok (x :: l) r.

Fixpoint string_chars (s : string) : result (list (ascii + N)) :=
  match s with
  | EmptyString => SyntaxError
  | String c r =>
      if (c =? DQ)%char then Ok [] r
      else if (c =? BACKSLASH)%char then
        match r with
        | String e r1 =>
            if (e =? "u")%char then
              match r1 with
              | String h1 (String h2 (String h3 (String h4 r2))) =>
                  match hex4 h1 h2 h3 h4 with
                  | Some cu => push (inr cu) (string_chars r2)
                  | None => SyntaxError
                  end
              | _ => SyntaxError
              end
            else
              match simple_escape e with
              | Some b => push (inl b) (string_chars r1)
              | None => SyntaxError
              end
        | EmptyString => SyntaxError
        end
      else if (code c <? 32)%N then SyntaxError
      else push (inl c) (string_chars r)
  end.

(** UTF-8 (generalised to lone surrogates) of a code point. *)
Definition utf8 (cp : N) : string :=
  let b (n : N) := String (ascii_of_N n) EmptyString in
  (if cp <? 128 then b cp
   else if cp <? 2048 then b (192 + cp / 64) +:+ b (128 + cp mod 64)
   else if cp <? 65536 then
     b (224 + cp / 4096) +:+ b (128 + (cp / 64) mod 64) +:+ b (128 + cp mod 64)
   else
     b (240 + cp / 262144) +:+ b (128 + (cp / 4096) mod 64)
     +:+ b (128 + (cp / 64) mod 64) +:+ b (128 + cp mod 64))%N.

Definition is_high_surrogate (cu : N) : bool := ((55296 <=? cu) && (cu <? 56320))%N.
Definition is_low_surrogate (cu : N) : bool := ((56320 <=? cu) && (cu <? 57344))%N.

(** The string a sequence of string characters denotes: an escaped high
    surrogate followed at once by an escaped low one is one code point. *)
Fixpoint decode (l : list (ascii + N)) : string :=
  match l with
  | [] => EmptyString
  | inl c :: t => String c (decode t)
  | inr hi :: t =>
      match t with
      | inr lo :: t' =>
          if is_high_surrogate hi && is_low_surrogate lo
          then utf8 (65536 + (hi - 55296) * 1024 + (lo - 56320))%N +:+ decode t'
          else utf8 hi +:+ decode t
      | _ => utf8 hi +:+ decode t
      end
  end.

Definition literal (word : string) (v : value) (s : string) : result value :=
  match strip word s with
  | Some r => Ok v r
  | None => SyntaxError
  end.

(** *** Values, by recursive descent

    [parse_value] expects the first character of a value; [parse_elements] the
    first element of a non-empty array, [parse_members] the first key of a
    non-empty object, both after the white space.  Between two calls of the
    same parser at least one character is consumed, so the fuel [parse]
    gives, more than twice the length of the text, is never exhausted
    ([fuel_adequate] below). *)

Fixpoint parse_value (fuel : nat) (s : string) : result value :=
  match fuel with
  | O => OutOfFuel
  | S fuel =>
      match s with
      | EmptyString => SyntaxError
      | String c r =>
          if (c =? "{")%char then
            match skip_ws r with
            | String c' r' =>
                if (c' =? "}")%char then Ok (JObject []) r'
                else do (ms, r1) <- parse_members fuel (skip_ws r); Ok (JObject ms) r1
            | EmptyString => SyntaxError
            end
          else if (c =? "[")%char then
            match skip_ws r with
            | String c' r' =>
                if (c' =? "]")%char then Ok (JArray []) r'
                else do (vs, r1) <- parse_elements fuel (skip_ws r); Ok (JArray vs) r1
            | EmptyString => SyntaxError
            end
          else if (c =? DQ)%char then
            do (u, r1) <- string_chars r; Ok (JString (decode u)) r1
          else if (c =? "t")%char then literal "true" (JBool true) s
          else if (c =? "f")%char then literal "false" (JBool false) s
          else if (c =? "n")%char then literal "null" JNull s
          else do (n, r1) <- parse_number s; Ok (JNumber n) r1
      end
  end
with parse_elements (fuel : nat) (s : string) : result (list value) :=
  match fuel with
  | O => OutOfFuel
  | S fuel =>
      do (v, r) <- parse_value fuel s;
      match skip_ws r with
      | String c r1 =>
          if (c =? ",")%char then push v (parse_elements fuel (skip_ws r1))
          else if (c =? "]")%char then Ok [v] r1
          else SyntaxError
      | EmptyString => SyntaxError
      end
  end
with parse_members (fuel : nat) (s : string) : result (list (string * value)) :=
  match fuel with
  | O => OutOfFuel
  | S fuel =>
      match s with
      | EmptyString => SyntaxError
      | String q r =>
          if (q =? DQ)%char then
            do (u, r1) <- string_chars r;
            match skip_ws r1 with
            | String c r2 =>
                if (c =? ":")%char then
                  do (v, r3) <- parse_value fuel (skip_ws r2);
                  match skip_ws r3 with
                  | String c' r4 =>
                      if (c' =? ",")%char
                      then push (decode u, v) (parse_members fuel (skip_ws r4))
                      else if (c' =? "}")%char then Ok [(decode u, v)] r4
                      else SyntaxError
                  | EmptyString => SyntaxError
                  end
                else SyntaxError
            | EmptyString => SyntaxError
            end
          else SyntaxError
      end
  end.

(** [JSON.parse text]: [None] when it throws a [SyntaxError]. *)
Definition parse (text : string) : option value :=
  match parse_value (2 * String.length text + 2) (skip_ws text) with
  | Ok v r =>
      match skip_ws r with
      | EmptyString => Some v
      | String _ _ => None
      end
  | SyntaxError | OutOfFuel => None
  end.

(** *** Reading a parsed value *)

(** [v.key]: the last member of that name of an object ([JSON.parse] lets a
    later duplicate overwrite an earlier one); [undefined] on anything else
    (no prototype of a parsed value has one of the properties the program
    reads). *)
Fixpoint last_member (key : string) (members : list (string * value)) : option value :=
  match members with
  | [] => None
  | (k, v) :: rest =>
      match last_member key rest with
      | Some w => Some w
      | None => if String.eqb k key then Some v else None
      end
  end.

Definition get (v : value) (key : string) : option value :=
  match v with
  | JObject members => last_member key members
  | _ => None
  end.

(** [ToBoolean], the test of [if (v)] and of [a && b]. *)
Definition truthy (v : option value) : bool :=
  match v with
  | None => false
  | Some JNull => false
  | Some (JBool b) => b
  | Some (JNumber n) =>
      match n with
      | Finite q => negb (Qeq_bool q 0)
      | NaN => false
      | _ => true
      end
  | Some (JString s) => negb (String.eqb s EmptyString)
  | Some (JArray _) | Some (JObject _) => true
  end.

(** [v === 'text']. *)
Definition is_string (v : option value) (text : string) : bool :=
  match v with
  | Some (JString s) => String.eqb s text
  | _ => false
  end.

End JSON.

(** ** The reply: accumulation and classification ([handleFormSubmit]) *)

(** *** The fenced block: [fullResponse.match(/```json\n([\s\S]*?)\n```/)] *)

Definition FENCE_OPEN : string := "```json" +:+ String LF EmptyString.
Definition FENCE_CLOSE : string := String LF "```".

(** [([\s\S]*?)\n```] matched at the head of [s]: the lazy group takes the
    fewest characters after which the closing fence follows. *)
Fixpoint lazy_group (s : string) : option string :=
  match strip FENCE_CLOSE s with
  | Some _ => Some EmptyString
  | None =>
      match s with
      | EmptyString => None
      | String c r => String c <$> lazy_group r
      end
  end.

(** The expression is tried at each index from the left and the first match
    wins; the result is its capture group, [jsonMatch[1]], and [None] is the
    [null] of no match. *)
Fixpoint fenced_block (s : string) : option string :=
  match strip FENCE_OPEN s ≫= lazy_group with
  | Some g => Some g
  | None =>
      match s with
      | EmptyString => None
      | String _ r => fenced_block r
      end
  end.

(** *** The message element

    The children of [modelMessageElement], in document order.  The last two
    stand for what the calls [handleImageGeneration(prompt, element)] and
    [renderDiagram(data, element)] put into it. *)
Inductive MessageNode :=
| Loading
| Paragraph (innerText : string)
| ImageGeneration (prompt : JSON.value)
| DiagramRendering (data : JSON.value).

Definition MessageElement := list MessageNode.

(** [renderAsText]: the text of the first paragraph is replaced; a paragraph
    is appended when there is none. *)
Fixpoint renderAsText (text : string) (element : MessageElement) : MessageElement :=
  match element with
  | [] => [Paragraph text]
  | Paragraph _ :: rest => Paragraph text :: rest
  | node :: rest => node :: renderAsText text rest
  end.

(** [const p = element.querySelector('p'); if (p) p.remove()]. *)
Fixpoint remove_p (element : MessageElement) : MessageElement :=
  match element with
  | [] => []
  | Paragraph _ :: rest => rest
  | node :: rest => node :: remove_p rest
  end.

(** [element.removeChild(loadingIndicator)]. *)
Fixpoint removeChild_loadingIndicator (element : MessageElement) : MessageElement :=
  match element with
  | [] => []
  | Loading :: rest => rest
  | node :: rest => node :: removeChild_loadingIndicator rest
  end.

(** One turn of [for await (const chunk of stream)] on the state
    [(element, fullResponse, firstChunk)]. *)
Definition stream_step (st : MessageElement * string * bool) (chunk : string)
  : MessageElement * string * bool :=
  let '(element, fullResponse, firstChunk) := st in
  let element := if firstChunk then removeChild_loadingIndicator element else element in
  let fullResponse := fullResponse +:+ chunk in
  (renderAsText fullResponse element, fullResponse, false).

(** The element and [fullResponse] when the stream ends; the element starts
    with the loading indicator alone ([addMessage('model', '')] adds no
    paragraph for an empty text). *)
Definition accumulate (chunks : list string) : MessageElement * string :=
  let '(element, fullResponse, _) := foldl stream_step ([Loading], EmptyString, true) chunks in
  (element, fullResponse).

(** The [try { JSON.parse(fullResponse) } catch { ... }] block: the value of
    [parsedJson] after it ([None] is [null]) and the element. *)
Definition extract (fullResponse : string) (element : MessageElement)
  : option JSON.value * MessageElement :=
  match JSON.parse fullResponse with
  | Some v => (Some v, element)
  | None =>
      match fenced_block fullResponse with
      | Some g =>
          if negb (String.eqb g EmptyString) then
            match JSON.parse g with
            | Some v => (Some v, element)
            | None => (None, renderAsText fullResponse element)
            end
          else (None, element)
      | None => (None, element)
      end
  end.

(** The [if (parsedJson) { ... }] block. *)
Definition dispatch (parsedJson : option JSON.value) (fullResponse : string)
    (element : MessageElement) : MessageElement :=
  match parsedJson with
  | Some v =>
      if JSON.truthy (Some v) then
        let element := remove_p element in
        if JSON.is_string (JSON.get v "action") "generate_image"
           && JSON.truthy (JSON.get v "prompt")
        then match JSON.get v "prompt" with
             | Some prompt => element ++ [ImageGeneration prompt]
             | None => element
             end
        else if JSON.truthy (JSON.get v "components")
                && JSON.truthy (JSON.get v "connections")
        then element ++ [DiagramRendering v]
        else renderAsText fullResponse element
      else element
  | None => element
  end.

(** [handleFormSubmit] from the stream on, for a stream that delivers the
    texts [chunks] and ends without an error: the message element when the
    function returns.  The calls of [handleImageGeneration] and of
    [renderDiagram] are recorded with their argument; what they do to the
    element (and an exception they may throw) is not part of this function. *)
Definition handleFormSubmit (chunks : list string) : MessageElement :=
  let '(element, fullResponse) := accumulate chunks in
  let '(parsedJson, element) := extract fullResponse element in
  dispatch parsedJson fullResponse element.

(** What the element shows, in the words of the classification. *)
Inductive Classification :=
| PlainText (text : string)
| ImageDirective (prompt : JSON.value)
| Diagram (data : JSON.value).

Definition is_loading (node : MessageNode) : bool :=
  match node with Loading => true | _ => false end.

Definition classification (element : MessageElement) : option Classification :=
  match filter (λ node, is_loading node = false) element with
  | [] => Some (PlainText EmptyString)
  | [Paragraph text] => Some (PlainText text)
  | [ImageGeneration prompt] => Some (ImageDirective prompt)
  | [DiagramRendering data] => Some (Diagram data)
  | _ => None
  end.

(** ** The diagram data (the interfaces of the source)

    The fields [type], [state] and [diagramType] are the strings the parsed
    JSON holds: the program compares them with its literals and has a path
    for a string that is none of them. *)

Module DiagramComponent.
Record t := mk {
  id : string;
  type : string;
  x : number;
  y : number;
  label : string;
  state : option string;
  width : option number
}.
End DiagramComponent.

Module DiagramConnection.
Record t := mk { from : string; to : string }.
End DiagramConnection.

Module DiagramData.
Record t := mk {
  diagramType : option string;
  width : number;
  height : number;
  components : list DiagramComponent.t;
  connections : list DiagramConnection.t
}.
End DiagramData.

(** The declared [ComponentType]. *)
Definition ComponentType : list string :=
  ["battery"; "resistor"; "led"; "switch";
   "generator"; "transformer"; "bus"; "breaker"; "load"].

(** [terminal === 'name'], where [terminal] may be [undefined]. *)
Definition is_name (terminal : option string) (name : string) : bool :=
  match terminal with
  | Some s => String.eqb s name
  | None => false
  end.

(** ** [getTerminalCoords]

    The point [{x, y}] is the pair [(x, y)]; [None] is [null]. *)
Definition getTerminalCoords (component : option DiagramComponent.t)
    (terminal : option string) : option (number * number) :=
  match component with
  | None => None
  | Some component =>
      let '(x, y, type) :=
        (DiagramComponent.x component, DiagramComponent.y component,
         DiagramComponent.type component) in
      if String.eqb type "battery" then
        Some (if is_name terminal "positive" then (x, y - num 20) else (x, y + num 20))%js
      else if String.eqb type "resistor" then
        Some (if is_name terminal "in" then (x - num 30, y) else (x + num 30, y))%js
      else if String.eqb type "led" then
        Some (if is_name terminal "anode" then (x - num 25, y) else (x + num 25, y))%js
      else if String.eqb type "switch" then
        Some (if is_name terminal "in" then (x - num 30, y) else (x + num 30, y))%js
      else if String.eqb type "generator" then
        Some (x, y + num 30)%js
      else if String.eqb type "transformer" then
        Some (if is_name terminal "primary" then (x, y - num 30) else (x, y + num 30))%js
      else if String.eqb type "bus" then
        let busOffset := parseFloat terminal in
        Some (x + (if isNaN busOffset then num 0 else busOffset), y)%js
      else if String.eqb type "breaker" then
        Some (if is_name terminal "in" then (x - num 25, y) else (x + num 25, y))%js
      else if String.eqb type "load" then
        Some (x, y - num 25)%js
      else None
  end.

(** ** The drawing

    An element is its tag, its attributes in the order they are set and its
    children.  An attribute value is the template it is built from: literal
    text, and numbers where the program converts a number to text.  The
    markup a [draw*] function assigns to [innerHTML] is given as the elements
    it parses to (the white space between them is not kept). *)

Inductive Frag :=
| Lit (text : string)
| Num (n : number).

Definition Template := list Frag.

#[warnings="-register-all"]
Inductive SVGNode :=
| Elem (tag : string) (attrs : list (string * Template)) (children : list SVGNode)
| TextNode (text : string).

Definition attr (name value : string) : string * Template := (name, [Lit value]).

Definition line_ (x1 y1 x2 y2 class : string) : SVGNode :=
  Elem "line" [attr "x1" x1; attr "y1" y1; attr "x2" x2; attr "y2" y2; attr "class" class] [].

Definition circle_ (cx cy r : string) (more : list (string * Template)) : SVGNode :=
  Elem "circle" ([attr "cx" cx; attr "cy" cy; attr "r" r] ++ more) [].

Definition path_ (d : string) (more : list (string * Template)) : SVGNode :=
  Elem "path" (attr "d" d :: more) [].

Definition drawBattery : SVGNode :=
  Elem "g" []
    [ line_ "0" "-20" "0" "20" "component-body terminal";
      line_ "-15" "-10" "15" "-10" "component-body";
      line_ "-10" "10" "10" "10" "component-body";
      Elem "text" [attr "x" "-25"; attr "y" "-8"; attr "font-size" "16px";
                   attr "text-anchor" "middle"] [TextNode "+"];
      Elem "text" [attr "x" "-20"; attr "y" "15"; attr "font-size" "20px";
                   attr "text-anchor" "middle"] [TextNode "-"] ].

Definition drawResistor : SVGNode :=
  Elem "g" []
    [ line_ "-30" "0" "-20" "0" "component-body terminal";
      path_ "M -20 0 l 5 -10 l 10 20 l 10 -20 l 10 20 l 10 -20 l 5 10"
        [attr "stroke" "black"; attr "stroke-width" "2"; attr "fill" "none";
         attr "class" "component-body"];
      line_ "20" "0" "30" "0" "component-body terminal" ].

Definition drawLed : SVGNode :=
  Elem "g" []
    [ line_ "-25" "0" "0" "0" "component-body terminal";
      line_ "25" "0" "0" "0" "component-body terminal";
      path_ "M 0 -15 l 25 15 l -25 15 z" [attr "class" "component-body"; attr "fill" "none"];
      line_ "-5" "15" "25" "15" "component-body";
      Elem "g" [attr "transform" "translate(5, -20) rotate(-45)"]
        [ path_ "M 0 0 l 5 5 l -5 5"
            [attr "fill" "none"; attr "stroke-width" "2"; attr "class" "component-body"];
          path_ "M 5 0 l 5 5 l -5 5"
            [attr "fill" "none"; attr "stroke-width" "2"; attr "class" "component-body"] ] ].

(** [const rotation = state === 'open' ? '-30' : '0'], after the default
    [state = 'open'] of the parameter. *)
Definition rotation (state : option string) : string :=
  let state := default "open" state in
  if String.eqb state "open" then "-30" else "0".

Definition drawSwitch (state : option string) : SVGNode :=
  Elem "g" []
    [ line_ "-30" "0" "-5" "0" "component-body terminal";
      line_ "30" "0" "5" "0" "component-body terminal";
      circle_ "-5" "0" "3" [attr "class" "component-body"; attr "fill" "#333"];
      circle_ "5" "0" "3" [attr "class" "component-body"; attr "fill" "#333"];
      Elem "line" [attr "x1" "-5"; attr "y1" "0"; attr "x2" "25"; attr "y2" "0";
                   attr "class" "component-body";
                   attr "transform" ("rotate(" +:+ rotation state +:+ " -5 0)")] [] ].

Definition drawGenerator : SVGNode :=
  Elem "g" []
    [ circle_ "0" "0" "20" [attr "class" "component-body"; attr "fill" "none"];
      path_ "M -13 0 Q -6.5 -15 0 0 T 13 0" [attr "class" "component-symbol"];
      line_ "0" "20" "0" "30" "component-body terminal" ].

Definition drawTransformer : SVGNode :=
  Elem "g" []
    [ circle_ "0" "-8" "12" [attr "class" "component-body"; attr "fill" "none"];
      circle_ "0" "8" "12" [attr "class" "component-body"; attr "fill" "none"];
      line_ "0" "-20" "0" "-30" "component-body terminal";
      line_ "0" "20" "0" "30" "component-body terminal" ].

Definition drawBus (width : option number) : SVGNode :=
  let width := default (num 100) width in
  Elem "g" []
    [ Elem "line" [("x1", [Num (num_half (- width))]); attr "y1" "0";
                   ("x2", [Num (num_half width)]); attr "y2" "0";
                   attr "class" "bus-bar"] [] ].

Definition drawCircuitBreaker : SVGNode :=
  Elem "g" []
    [ Elem "rect" [attr "x" "-8"; attr "y" "-8"; attr "width" "16"; attr "height" "16";
                   attr "class" "component-body"; attr "fill" "none"] [];
      line_ "-25" "0" "-8" "0" "component-body terminal";
      line_ "25" "0" "8" "0" "component-body terminal" ].

Definition drawLoad : SVGNode :=
  Elem "g" []
    [ line_ "0" "-25" "0" "0" "component-body terminal";
      path_ "M 0 0 L -10 10 L 0 5 L 10 10 Z" [attr "class" "component-symbol"] ].

(** ** [renderDiagram] *)

(** [new Map(data.components.map(c => [c.id, c]))]: a later component
    replaces an earlier one of the same id. *)
Definition componentMap (components : list DiagramComponent.t)
  : gmap string DiagramComponent.t :=
  foldl (λ m c, <[DiagramComponent.id c := c]> m) ∅ components.

(** [getTerminalCoords(componentMap.get(id), terminal)] for
    [const [id, terminal] = reference.split('.')]. *)
Definition endpoint (m : gmap string DiagramComponent.t) (reference : string)
  : option (number * number) :=
  let parts := split "." reference in
  let '(id, terminal) := (parts !! 0%nat, parts !! 1%nat) in
  getTerminalCoords (id ≫= (m !!.)) terminal.

Definition wire (fromCoords toCoords : number * number) : SVGNode :=
  Elem "line" [("x1", [Num fromCoords.1]); ("y1", [Num fromCoords.2]);
               ("x2", [Num toCoords.1]); ("y2", [Num toCoords.2]);
               attr "class" "wire"] [].

(** The line of a connection, when [fromCoords && toCoords] holds. *)
Definition wire_of (m : gmap string DiagramComponent.t) (conn : DiagramConnection.t)
  : option SVGNode :=
  match endpoint m (DiagramConnection.from conn), endpoint m (DiagramConnection.to conn) with
  | Some fromCoords, Some toCoords => Some (wire fromCoords toCoords)
  | _, _ => None
  end.

(** The body of the loop over the connections, on the children of [svg]. *)
Definition draw_connection (m : gmap string DiagramComponent.t)
    (children : list SVGNode) (conn : DiagramConnection.t) : list SVGNode :=
  match wire_of m conn with
  | Some line => children ++ [line]
  | None => children
  end.

(** The [switch (component.type)] of the second loop; [None] is the [null]
    [componentSvg] starts with. *)
Definition componentSvg (component : DiagramComponent.t) : option SVGNode :=
  let type := DiagramComponent.type component in
  if String.eqb type "battery" then Some drawBattery
  else if String.eqb type "resistor" then Some drawResistor
  else if String.eqb type "led" then Some drawLed
  else if String.eqb type "switch" then Some (drawSwitch (DiagramComponent.state component))
  else if String.eqb type "generator" then Some drawGenerator
  else if String.eqb type "transformer" then Some drawTransformer
  else if String.eqb type "bus" then Some (drawBus (DiagramComponent.width component))
  else if String.eqb type "breaker" then Some drawCircuitBreaker
  else if String.eqb type "load" then Some drawLoad
  else None.

Definition label_of (component : DiagramComponent.t) : SVGNode :=
  Elem "text" [attr "x" "0"; attr "y" "45"; attr "class" "component-label"]
    [TextNode (DiagramComponent.label component)].

(** The group of a component: its symbol, if its type has one, then its label. *)
Definition group_of (component : DiagramComponent.t) : SVGNode :=
  Elem "g"
    [("transform", [Lit "translate("; Num (DiagramComponent.x component); Lit ", ";
                    Num (DiagramComponent.y component); Lit ")"])]
    (match componentSvg component with
     | Some symbol => [symbol]
     | None => []
     end ++ [label_of component]).

(** The body of the loop over the components. *)
Definition draw_component (children : list SVGNode) (component : DiagramComponent.t)
  : list SVGNode :=
  children ++ [group_of component].

(** The children of [svg] when [renderDiagram] is done. *)
Definition svg_children (data : DiagramData.t) : list SVGNode :=
  let m := componentMap (DiagramData.components data) in
  let children := foldl (draw_connection m) [] (DiagramData.connections data) in
  foldl draw_component children (DiagramData.components data).

(** [renderDiagram(data, container)]: the [div] it appends to the container. *)
Definition renderDiagram (data : DiagramData.t) : SVGNode :=
  let svg :=
    Elem "svg"
      ([("viewBox", [Lit "0 0 "; Num (DiagramData.width data); Lit " ";
                     Num (DiagramData.height data)]);
        attr "preserveAspectRatio" "xMidYMid meet"]
       ++ (if bool_decide (DiagramData.diagramType data = Some "single-line")
           then [attr "class" "single-line-diagram"] else []))
      (svg_children data) in
  Elem "div" [attr "class" "diagram-container"] [svg].

(** *** Reading a drawing *)

Definition tag_of (node : SVGNode) : string :=
  match node with
  | Elem tag _ _ => tag
  | TextNode _ => EmptyString
  end.

Definition children_of (node : SVGNode) : list SVGNode :=
  match node with
  | Elem _ _ children => children
  | TextNode _ => []
  end.

Definition attribute (name : string) (node : SVGNode) : option Template :=
  match node with
  | Elem _ attrs _ => snd <$> List.find (λ a, String.eqb (fst a) name) attrs
  | TextNode _ => None
  end.

(** A wire is a [line] child of [svg], a component a [g] child. *)
Definition is_wire (node : SVGNode) : Prop := tag_of node = "line".
Definition is_component_group (node : SVGNode) : Prop := tag_of node = "g".

(** The moving contact of a switch symbol: its last element. *)
Definition contact_arm (symbol : SVGNode) : option SVGNode := last (children_of symbol).

(** *** Connections *)

(** The component a reference names, [componentMap.get(id)]. *)
Definition referenced (m : gmap string DiagramComponent.t) (reference : string)
  : option DiagramComponent.t :=
  split "." reference !! 0%nat ≫= (m !!.).

(** A connection one of whose references names no component. *)
Definition dangling (m : gmap string DiagramComponent.t) (conn : DiagramConnection.t) : Prop :=
  referenced m (DiagramConnection.from conn) = None
  ∨ referenced m (DiagramConnection.to conn) = None.

(** A connection both of whose endpoints resolve. *)
Definition resolves (m : gmap string DiagramComponent.t) (conn : DiagramConnection.t) : Prop :=
  is_Some (endpoint m (DiagramConnection.from conn))
  ∧ is_Some (endpoint m (DiagramConnection.to conn)).

Fixpoint has_dot (s : string) : bool :=
  match s with
  | EmptyString => false
  | String c r => (c =? ".")%char || has_dot r
  end.

(** *** The fenced block, declaratively: the leftmost place where the opening
    fence, some text and the closing fence follow one another, with the
    shortest such text. *)
Definition first_fence (s g : string) : Prop :=
  ∃ pre post,
    s = pre +:+ FENCE_OPEN +:+ g +:+ FENCE_CLOSE +:+ post
    ∧ (∀ pre' g' post', s = pre' +:+ FENCE_OPEN +:+ g' +:+ FENCE_CLOSE +:+ post' →
         String.length pre ≤ String.length pre')
    ∧ (∀ g' post', s = pre +:+ FENCE_OPEN +:+ g' +:+ FENCE_CLOSE +:+ post' →
         String.length g ≤ String.length g').

(** ** The specification's tables and wording, for comparison with the code *)

Module Spec.

(** The named terminals of the table of section 4.1, with their local offsets. *)
Definition terminals (kind : string) : list (string * (Z * Z)) :=
  if String.eqb kind "battery" then [("positive", (0, -20)%Z); ("negative", (0, 20)%Z)]
  else if String.eqb kind "resistor" then [("in", (-30, 0)%Z); ("out", (30, 0)%Z)]
  else if String.eqb kind "led" then [("anode", (-25, 0)%Z); ("cathode", (25, 0)%Z)]
  else if String.eqb kind "switch" then [("in", (-30, 0)%Z); ("out", (30, 0)%Z)]
  else if String.eqb kind "transformer" then [("primary", (0, -30)%Z); ("secondary", (0, 30)%Z)]
  else if String.eqb kind "breaker" then [("in", (-25, 0)%Z); ("out", (25, 0)%Z)]
  else [].

Definition named_offset (kind name : string) : option (Z * Z) :=
  snd <$> List.find (λ e, String.eqb name (fst e)) (terminals kind).

(** The default terminal of a kind (the "(default)" entries and the single
    implicit terminals; for a bus, offset 0). *)
Definition default_offset (kind : string) : Z * Z :=
  if String.eqb kind "battery" then (0, 20)%Z
  else if String.eqb kind "resistor" then (30, 0)%Z
  else if String.eqb kind "led" then (25, 0)%Z
  else if String.eqb kind "switch" then (30, 0)%Z
  else if String.eqb kind "generator" then (0, 30)%Z
  else if String.eqb kind "transformer" then (0, 30)%Z
  else if String.eqb kind "breaker" then (25, 0)%Z
  else if String.eqb kind "load" then (0, -25)%Z
  else (0, 0)%Z.

(** "position + offset". *)
Definition translate (position : number * number) (offset : Z * Z) : number * number :=
  (position.1 + num offset.1, position.2 + num offset.2)%js.

(** A terminal name the table has for the kind: one of its named entries, or,
    for a bus, a text that parses as a number. *)
Definition recognized (kind : string) (terminal : option string) : bool :=
  if String.eqb kind "bus" then negb (isNaN (parseFloat terminal))
  else match terminal with
       | Some name => bool_decide (is_Some (named_offset kind name))
       | None => false
       end.

(** The fenced block as the classifier section words it: a line that is
    exactly the opening fence, then the text up to the next line that is
    exactly the closing fence. *)
Fixpoint after_opening_line (lines : list string) : option (list string) :=
  match lines with
  | [] => None
  | l :: rest => if String.eqb l "```json" then Some rest else after_opening_line rest
  end.

Fixpoint before_closing_line (lines : list string) : option (list string) :=
  match lines with
  | [] => None
  | l :: rest =>
      if String.eqb l "```" then Some []
      else (l ::.) <$> before_closing_line rest
  end.

Definition fenced_block (s : string) : option string :=
  match after_opening_line (split LF s) with
  | Some rest => String.concat (String LF EmptyString) <$> before_closing_line rest
  | None => None
  end.

End Spec.

(** ** More readers of a drawing *)

(** The number an attribute holds: the text of a literal as read by
    [parseFloat] (the literals of the symbols are plain decimal numbers), or
    the number the program put there. *)
Definition attribute_number (name : string) (node : SVGNode) : option number :=
  match attribute name node with
  | Some [Lit text] => Some (parseFloat (Some text))
  | Some [Num n] => Some n
  | _ => None
  end.

(** The two ends of a [line] element. *)
Definition line_ends (node : SVGNode) : list (number * number) :=
  match attribute_number "x1" node, attribute_number "y1" node,
        attribute_number "x2" node, attribute_number "y2" node with
  | Some x1, Some y1, Some x2, Some y2 => [(x1, y1); (x2, y2)]
  | _, _, _, _ => []
  end.

Definition is_literal (value : option Template) (text : string) : bool :=
  match value with
  | Some [Lit t] => String.eqb t text
  | _ => false
  end.

(** The ends of the lines a symbol draws with the class of a terminal. *)
Definition terminal_ends (symbol : SVGNode) : list (number * number) :=
  flat_map
    (λ node,
       if String.eqb (tag_of node) "line"
          && is_literal (attribute "class" node) "component-body terminal"
       then line_ends node else [])
    (children_of symbol).

(** The text of the label of a component group: its last child. *)
Definition label_text (group : SVGNode) : option string :=
  match last (children_of group) with
  | Some (Elem tag _ [TextNode text]) => if String.eqb tag "text" then Some text else None
  | _ => None
  end.

(** The value [parsedJson] holds after the [try] block, by one of its two
    routes: the reply parses as a whole, or it does not and the text of its
    fenced block parses. *)
Definition parsed_from (fullResponse : string) (v : JSON.value) : Prop :=
  JSON.parse fullResponse = Some v
  ∨ ∃ g, JSON.parse fullResponse = None
         ∧ fenced_block fullResponse = Some g
         ∧ JSON.parse g = Some v.

Fixpoint has_char (c : ascii) (s : string) : bool :=
  match s with
  | EmptyString => false
  | String a r => (a =? c)%char || has_char c r
  end.

(** The number of paragraphs of a message element. *)
Definition is_paragraph (node : MessageNode) : bool :=
  match node with Paragraph _ => true | _ => false end.

Definition paragraphs (element : MessageElement) : nat :=
  length (filter (λ node, is_paragraph node = true) element).

(** ** The calls on a value that was never checked

    [handleFormSubmit] hands the parsed value to [handleImageGeneration] and
    to [renderDiagram] as it is (the cast to [DiagramData] checks nothing),
    so both run on any JSON value.  A [TypeError] thrown there is caught by
    the [catch] block of [handleFormSubmit]. *)

(** The values that cannot be converted to a string or to a number, and whose
    method [toString] cannot be called: an object with a member [toString]
    of its own, which is no function (ECMA-262, 7.1.1.1), and an array with
    such an element, since [Array.prototype.join] converts every element but
    [null]. *)
Fixpoint unprintable (v : JSON.value) : bool :=
  match v with
  | JSON.JObject members => bool_decide (is_Some (JSON.last_member "toString" members))
  | JSON.JArray elements =>
      (fix any (l : list JSON.value) : bool :=
         match l with
         | [] => false
         | element :: rest => unprintable element || any rest
         end) elements
  | _ => false
  end.

(** A template literal [`${v}`], arithmetic on [v], [textContent = v]. *)
Definition conversion_throws (v : option JSON.value) : bool :=
  match v with
  | Some v => unprintable v
  | None => false
  end.

(** [v.toString()]. *)
Definition toString_throws (v : option JSON.value) : bool :=
  match v with
  | None | Some JSON.JNull => true
  | Some v => unprintable v
  end.

(** What a call of [getTerminalCoords] comes to: an exception, [null], or a
    point, of which [renderDiagram] calls [x.toString()] and [y.toString()]. *)
Inductive Coords :=
| Thrown
| Null
| Point (x_toString_throws y_toString_throws : bool).

(** [getTerminalCoords] on an unchecked component.  The kinds with terminals
    above and below compute [y] and pass [x] on as it is; the others compute
    [x] and pass [y] on.  The terminal name plays no part in this. *)
Definition getTerminalCoords_unchecked (component : option JSON.value) : Coords :=
  match component with
  | None => Null
  | Some c =>
      if negb (JSON.truthy (Some c)) then Null
      else
        let x := JSON.get c "x" in
        let y := JSON.get c "y" in
        let type := JSON.get c "type" in
        if JSON.is_string type "battery" || JSON.is_string type "generator"
           || JSON.is_string type "transformer" || JSON.is_string type "load"
        then if conversion_throws y then Thrown else Point (toString_throws x) false
        else if JSON.is_string type "resistor" || JSON.is_string type "led"
                || JSON.is_string type "switch" || JSON.is_string type "bus"
                || JSON.is_string type "breaker"
        then if conversion_throws x then Thrown else Point false (toString_throws y)
        else Null
  end.

(** [componentMap.get(id)] for [new Map(components.map(c => [c.id, c]))]: the
    last component whose [id] is that string. *)
Definition componentMap_get (components : list JSON.value) (id : string)
  : option JSON.value :=
  last (filter (λ c, JSON.is_string (JSON.get c "id") id = true) components).

(** One turn of the loop over the connections: [conn.from.split('.')] and
    [conn.to.split('.')] need two strings; then the two endpoints are
    resolved, and the four coordinates are written when both are points. *)
Definition connection_throws (components : list JSON.value) (conn : JSON.value) : bool :=
  match JSON.get conn "from", JSON.get conn "to" with
  | Some (JSON.JString from), Some (JSON.JString to) =>
      let coords (reference : string) :=
        getTerminalCoords_unchecked (split "." reference !! 0%nat ≫= componentMap_get components) in
      match coords from, coords to with
      | Thrown, _ | _, Thrown => true
      | Point x1 y1, Point x2 y2 => x1 || y1 || x2 || y2
      | _, _ => false
      end
  | _, _ => true
  end.

(** One turn of the loop over the components: the [transform], the symbol
    ([drawBus] computes with the width) and the label. *)
Definition component_throws (component : JSON.value) : bool :=
  match component with
  | JSON.JNull => true
  | _ =>
      conversion_throws (JSON.get component "x")
      || conversion_throws (JSON.get component "y")
      || JSON.is_string (JSON.get component "type") "bus"
         && conversion_throws (JSON.get component "width")
      || conversion_throws (JSON.get component "label")
  end.

(** Whether [renderDiagram(data, container)] throws.  Nothing is appended to
    the container before the last statement, so a call that throws leaves the
    container as it was. *)
Definition renderDiagram_throws (data : JSON.value) : bool :=
  conversion_throws (JSON.get data "width")
  || conversion_throws (JSON.get data "height")
  || match JSON.get data "components" with
     | Some (JSON.JArray components) =>
         existsb (λ c, match c with JSON.JNull => true | _ => false end) components
         || match JSON.get data "connections" with
            | Some (JSON.JArray connections) =>
                existsb (connection_throws components) connections
            | Some (JSON.JString text) => negb (String.eqb text EmptyString)
            | _ => true
            end
         || existsb component_throws components
     | _ => true
     end.

(** The shape of the interface [DiagramData], as far as the code reads it. *)
Definition is_number (v : option JSON.value) : bool :=
  match v with Some (JSON.JNumber _) => true | _ => false end.

Definition is_text (v : option JSON.value) : bool :=
  match v with Some (JSON.JString _) => true | _ => false end.

Definition is_DiagramComponent (c : JSON.value) : bool :=
  match c with
  | JSON.JObject _ =>
      is_text (JSON.get c "id") && is_text (JSON.get c "type")
      && is_number (JSON.get c "x") && is_number (JSON.get c "y")
      && is_text (JSON.get c "label")
      && match JSON.get c "width" with
         | None | Some (JSON.JNumber _) => true
         | _ => false
         end
  | _ => false
  end.

Definition is_DiagramConnection (conn : JSON.value) : bool :=
  is_text (JSON.get conn "from") && is_text (JSON.get conn "to").

Definition is_DiagramData (data : JSON.value) : bool :=
  is_number (JSON.get data "width") && is_number (JSON.get data "height")
  && match JSON.get data "components", JSON.get data "connections" with
     | Some (JSON.JArray components), Some (JSON.JArray connections) =>
         forallb is_DiagramComponent components
         && forallb is_DiagramConnection connections
     | _, _ => false
     end.

(** ** The page around the reply: the chat container, the selected file and
    the form controls *)

(** [String.prototype.trim]: [trimEnd] cuts the text where nothing but white
    space follows. *)
Fixpoint trimEnd (s : string) : string :=
  match s with
  | EmptyString => EmptyString
  | String c r =>
      match trimStart s with
      | EmptyString => EmptyString
      | String _ _ => String c (trimEnd r)
      end
  end.

Definition trim (s : string) : string := trimEnd (trimStart s).

Module Page.

Inductive Sender := user | model.

(** A message [div] of the chat container: the [img] that [addMessage] puts
    first when it is given an image (its [src] and [alt]), the children that
    follow, and whether [displayError] coloured it.  In a message of the
    page, [ImageGeneration prompt] is the [img] that [handleImageGeneration]
    leaves when the image was generated, its [alt] being the prompt, and
    [DiagramRendering data] is the diagram container that [renderDiagram]
    appends when it returns. *)
Record Message := mkMessage {
  sender : Sender;
  image : option (string * string);
  body : MessageElement;
  errorStyle : bool
}.

Record File := mkFile { name : string; type : string }.

Record SelectedFile := mkSelectedFile {
  file : File;
  base64 : string;
  mimeType : string
}.

(** What the functions read and write: [chat] is whether the chat session
    exists; the rest are the elements and the variable of the same names. *)
Record t := mk {
  chat : bool;
  chatContainer : list Message;
  selectedFile : option SelectedFile;
  fileInput_value : string;
  filePreviewImage_src : string;
  filePreviewName_textContent : string;
  filePreviewContainer_hidden : bool;
  promptInput_disabled : bool;
  formButton_disabled : bool;
  fileInput_disabled : bool
}.

Definition set_chatContainer (container : list Message) (p : t) : t :=
  mk (chat p) container (selectedFile p) (fileInput_value p) (filePreviewImage_src p)
    (filePreviewName_textContent p) (filePreviewContainer_hidden p)
    (promptInput_disabled p) (formButton_disabled p) (fileInput_disabled p).

Definition set_selectedFile (selected : option SelectedFile) (p : t) : t :=
  mk (chat p) (chatContainer p) selected (fileInput_value p) (filePreviewImage_src p)
    (filePreviewName_textContent p) (filePreviewContainer_hidden p)
    (promptInput_disabled p) (formButton_disabled p) (fileInput_disabled p).

Definition set_fileInput_value (value : string) (p : t) : t :=
  mk (chat p) (chatContainer p) (selectedFile p) value (filePreviewImage_src p)
    (filePreviewName_textContent p) (filePreviewContainer_hidden p)
    (promptInput_disabled p) (formButton_disabled p) (fileInput_disabled p).

(** The element [addMessage] creates: an [img] for a non-empty [imageUrl],
    then a paragraph for a non-empty [text]. *)
Definition createMessage (sender : Sender) (text : string) (imageUrl : option string)
  : Message :=
  {| sender := sender;
     image :=
       match imageUrl with
       | Some url =>
           if String.eqb url EmptyString then None
           else Some (url, match sender with
                           | user => "User uploaded image"
                           | model => "Model generated image"
                           end)
       | None => None
       end;
     body := if String.eqb text EmptyString then [] else [Paragraph text];
     errorStyle := false |}.

Definition addMessage (sender : Sender) (text : string) (imageUrl : option string)
    (container : list Message) : list Message :=
  container ++ [createMessage sender text imageUrl].

Definition displayError (message : string) (container : list Message) : list Message :=
  let errorElement := createMessage model message None in
  container ++ [mkMessage (sender errorElement) (image errorElement) (body errorElement) true].

Definition setFormState (isLoading : bool) (p : t) : t :=
  mk (chat p) (chatContainer p) (selectedFile p) (fileInput_value p) (filePreviewImage_src p)
    (filePreviewName_textContent p) (filePreviewContainer_hidden p)
    isLoading isLoading isLoading.

Definition updateFilePreview (p : t) : t :=
  match selectedFile p with
  | Some selected =>
      mk (chat p) (chatContainer p) (selectedFile p) (fileInput_value p)
        (base64 selected) (name (file selected)) false
        (promptInput_disabled p) (formButton_disabled p) (fileInput_disabled p)
  | None =>
      mk (chat p) (chatContainer p) (selectedFile p) (fileInput_value p)
        (filePreviewImage_src p) (filePreviewName_textContent p) true
        (promptInput_disabled p) (formButton_disabled p) (fileInput_disabled p)
  end.

Definition clearSelectedFile (p : t) : t :=
  updateFilePreview (set_fileInput_value EmptyString (set_selectedFile None p)).

(** [handleFileSelect] for the first file of the input, if any, with the data
    URL the reader delivers for it: the page once [reader.onload] has run
    (at once, when the function returns early). *)
Definition handleFileSelect (chosen : option (File * string)) (p : t) : t :=
  match chosen with
  | Some (f, result) =>
      match strip "image/" (type f) with
      | Some _ => updateFilePreview (set_selectedFile (Some (mkSelectedFile f result (type f))) p)
      | None => updateFilePreview (set_selectedFile None p)
      end
  | None => updateFilePreview (set_selectedFile None p)
  end.

(** A part of the message sent to the model; [data] is
    [base64.split(',')[1]], [undefined] when the text has no comma. *)
Inductive Part :=
| TextPart (text : string)
| InlineData (data : option string) (mimeType : string).

Definition messageParts (prompt : string) (fileToSend : option SelectedFile) : list Part :=
  (if String.eqb prompt EmptyString then [] else [TextPart prompt])
  ++ match fileToSend with
     | Some f => [InlineData (split "," (base64 f) !! 1%nat) (mimeType f)]
     | None => []
     end.

(** How the stream ended: it was delivered to its end, or
    [sendMessageStream] or an iteration of the loop threw. *)
Inductive StreamEnd := Completed | Failed.

(** How the [try] block of [handleImageGeneration] ended: an image was
    delivered and put into the element, or an exception was thrown (the
    request was rejected, or the response holds no image). *)
Inductive ImageEnd := Generated | Rejected.

Definition ERROR_NOTICE : string := "عذرًا، حدث خطأ أثناء معالجة طلبك.".
Definition IMAGE_ERROR_NOTICE : string := "عذرًا، فشل إنشاء الصورة.".

(** [handleImageGeneration(prompt, modelMessageElement)]: [None] when it
    throws, which it does when the status line cannot be written for a
    prompt that has no text form; otherwise the element when it returns and
    the messages it has added to the chat after the model's. *)
Definition handleImageGeneration (ai : bool) (prompt : JSON.value) (image_end : ImageEnd)
    (element : MessageElement) : option (MessageElement * list Message) :=
  if negb ai then Some (element, [])
  else if unprintable prompt then None
  else
    match image_end with
    | Generated => Some ([ImageGeneration prompt], [])
    | Rejected => Some ([], displayError IMAGE_ERROR_NOTICE [])
    end.

(** The [try] block of [handleFormSubmit]: [None] when an exception reaches
    its [catch] block; otherwise the model's element when the block is left
    and the messages added to the chat after it.  The element computed by
    [handleFormSubmit] above ends with the call that was made, if one was,
    and holds before it what the element held at the call.  [ai] is set
    before [chat] by [initializeApp] and neither is reset, so it exists when
    [chat] does. *)
Definition reply (chunks : list string) (stream_end : StreamEnd) (image_end : ImageEnd)
  : option (MessageElement * list Message) :=
  match stream_end with
  | Failed => None
  | Completed =>
      let element := handleFormSubmit chunks in
      match last element with
      | Some (ImageGeneration prompt) =>
          handleImageGeneration true prompt image_end (removelast element)
      | Some (DiagramRendering data) =>
          if renderDiagram_throws data then None else Some (element, [])
      | _ => Some (element, [])
      end
  end.

(** The whole of [handleFormSubmit] for the text [value] of the input, a
    stream that delivers [chunks] and ends as [stream_end], and an image
    request that ends as [image_end] if one is made: the page when the
    function returns, and the parts given to [sendMessageStream] ([None] when
    the function returns before sending).  In the [catch] block the error
    notice is added and the model's message removed.  The fields
    [promptForm.reset()] restores are not part of the page. *)
Definition handleFormSubmit (value : string) (chunks : list string)
    (stream_end : StreamEnd) (image_end : ImageEnd) (p : t) : t * option (list Part) :=
  if negb (chat p) then (p, None)
  else
    let prompt := trim value in
    if String.eqb prompt EmptyString && negb (bool_decide (is_Some (selectedFile p)))
    then (p, None)
    else
      let userMessageImage := base64 <$> selectedFile p in
      let fileToSend := selectedFile p in
      let p := set_chatContainer (addMessage user prompt userMessageImage (chatContainer p)) p in
      let p := setFormState true (clearSelectedFile p) in
      let container :=
        match reply chunks stream_end image_end with
        | Some (element, added) =>
            chatContainer p ++ [mkMessage model None element false] ++ added
        | None => displayError ERROR_NOTICE (chatContainer p)
        end in
      (setFormState false (set_chatContainer container p),
       Some (messageParts prompt fileToSend)).

End Page.

(** ** Example data *)

Definition example_battery : DiagramComponent.t :=
  DiagramComponent.mk "b1" "battery" (num 50) (num 50) "V1" None None.

Definition example_transformer : DiagramComponent.t :=
  DiagramComponent.mk "t1" "transformer" (num 10) (num 40) "T1" None None.

Definition example_bus : DiagramComponent.t :=
  DiagramComponent.mk "bus1" "bus" (num 100) (num 80) "Bus" None None.

Definition example_switch (state : option string) : DiagramComponent.t :=
  DiagramComponent.mk "s1" "switch" (num 120) (num 40) "S1" state None.

(** A component whose type is not one of the declared ones. *)
Definition example_capacitor : DiagramComponent.t :=
  DiagramComponent.mk "c1" "capacitor" (num 70) (num 20) "C1" None None.

Definition example_generator : DiagramComponent.t :=
  DiagramComponent.mk "gen1" "generator" (num 20) (num 30) "G" None None.

Definition example_diagram : DiagramData.t :=
  DiagramData.mk (Some "single-line") (num 200) (num 100)
    [example_bus; example_generator]
    [DiagramConnection.mk "bus1.-40" "gen1.out";
     DiagramConnection.mk "nowhere.in" "gen1.out";
     DiagramConnection.mk "gen1" "bus1.10.5"].

(** The reply of the first scenario of the specification. *)
Definition example_image_reply : string :=
  js "{'action':'generate_image','prompt':'a red barn'}".

Definition example_empty_prompt : string :=
  js "{'action':'generate_image','prompt':''}".

(** A diagram object between fences that share their lines with prose. *)
Definition example_inline_fence : string :=
  "Here it is: ```json" +:+ String LF (js "{'components':[],'connections':[]}")
  +:+ String LF "``` (end)".

(** A reply that is a diagram of the declared shape, the value it parses
    to, and a reply that passes for a diagram without being one. *)
Definition example_diagram_reply : string :=
  js "{'width':200,'height':100,'components':[{'id':'b1','type':'battery','x':50,'y':50,'label':'V1'},{'id':'r1','type':'resistor','x':120,'y':50,'label':'R1'}],'connections':[{'from':'b1.positive','to':'r1.in'}]}".

Definition example_diagram_value : JSON.value :=
  JSON.JObject
    [("width", JSON.JNumber (num 200)); ("height", JSON.JNumber (num 100));
     ("components",
      JSON.JArray
        [JSON.JObject [("id", JSON.JString "b1"); ("type", JSON.JString "battery");
                       ("x", JSON.JNumber (num 50)); ("y", JSON.JNumber (num 50));
                       ("label", JSON.JString "V1")];
         JSON.JObject [("id", JSON.JString "r1"); ("type", JSON.JString "resistor");
                       ("x", JSON.JNumber (num 120)); ("y", JSON.JNumber (num 50));
                       ("label", JSON.JString "R1")]]);
     ("connections",
      JSON.JArray
        [JSON.JObject [("from", JSON.JString "b1.positive"); ("to", JSON.JString "r1.in")]])].

Definition example_no_diagram_reply : string :=
  js "{'components':'none','connections':[]}".

(** A page with a chat session, an empty chat and nothing selected, and the
    same page after an image was chosen. *)
Definition example_page : Page.t :=
  Page.mk true [] None "" "" "" true false false false.

Definition example_page_with_file : Page.t :=
  Page.handleFileSelect
    (Some (Page.mkFile "panel.png" "image/png", "data:image/png;base64,iVBORw0KGgo="))
    example_page.

(** * Properties *)

(** ** The library models on small inputs *)

Example parse_object_keeps_members_in_order :
  JSON.parse (js " {'a': 1, 'a': [true, null], 'b': -2.50e1} ")
  = Some (JSON.JObject [("a", JSON.JNumber (num 1));
                        ("a", JSON.JArray [JSON.JBool true; JSON.JNull]);
                        ("b", JSON.JNumber (num (-25)))]).
Proof. vm_compute. reflexivity. Qed.

Example get_reads_the_last_duplicate :
  JSON.get (JSON.JObject [("a", JSON.JNull); ("a", JSON.JBool true)]) "a"
  = Some (JSON.JBool true).
Proof. reflexivity. Qed.

Example parse_decodes_escapes :
  JSON.parse (js "'\u0041\n\u00e9'")
  = Some (JSON.JString (String "A" (String LF (String "195" (String "169" ""))))).
Proof. vm_compute. reflexivity. Qed.

Example parse_rejects_trailing_comma : JSON.parse (js "{'a':1,}") = None.
Proof. vm_compute. reflexivity. Qed.

Example parse_rejects_leading_zero : JSON.parse "01" = None.
Proof. vm_compute. reflexivity. Qed.

Example parse_rejects_prose : JSON.parse "Hello" = None.
Proof. vm_compute. reflexivity. Qed.

Example parse_number_too_small_is_zero :
  JSON.parse "1e-400" = Some (JSON.JNumber (num 0))
  ∧ JSON.truthy (JSON.parse "1e-400") = false
  ∧ JSON.truthy (JSON.parse "5e-324") = true.
Proof. repeat split; vm_compute; reflexivity. Qed.

Example parse_number_too_large_is_infinite :
  JSON.parse "1e309" = Some (JSON.JNumber PosInfinity)
  ∧ JSON.parse "-1e309" = Some (JSON.JNumber NegInfinity)
  ∧ parseFloat (Some "1e-400") = num 0.
Proof. repeat split; vm_compute; reflexivity. Qed.

Example parseFloat_reads_a_prefix : parseFloat (Some "  12.5e1xyz") = num 125.
Proof. vm_compute. reflexivity. Qed.

Example parseFloat_of_a_name : parseFloat (Some "out") = NaN.
Proof. vm_compute. reflexivity. Qed.

Example parseFloat_of_undefined : parseFloat None = NaN.
Proof. vm_compute. reflexivity. Qed.

(** A text with a numeric prefix is read as that number. *)
Example bus_terminal_with_numeric_prefix :
  getTerminalCoords (Some example_bus) (Some "12abc") = Some (num 112, num 80).
Proof. vm_compute. reflexivity. Qed.

Example split_reference : split "." "bus1.-40" = ["bus1"; "-40"].
Proof. reflexivity. Qed.

Example split_without_separator : split "." "gen1" = ["gen1"].
Proof. reflexivity. Qed.

Example fenced_block_needs_two_line_breaks :
  fenced_block (FENCE_OPEN +:+ "```") = None
  ∧ fenced_block (FENCE_OPEN +:+ "{}" +:+ FENCE_CLOSE) = Some "{}".
Proof. split; vm_compute; reflexivity. Qed.

(** ** Numbers *)

Lemma num_add_0_r (a : number) : (a + num 0)%js = a.
Proof.
  destruct a as [[n d]| | |]; simpl; try reflexivity.
  unfold Qplus; simpl. rewrite Z.mul_1_r, Z.add_0_r, Pos.mul_1_r. reflexivity.
Qed.

Lemma num_sub_add (a : number) (z : Z) : (a - num z)%js = (a + num (- z))%js.
Proof. destruct a; reflexivity. Qed.

Lemma translate_0_0 (p : number * number) : Spec.translate p (0, 0)%Z = p.
Proof. destruct p. unfold Spec.translate. simpl. by rewrite !num_add_0_r. Qed.

(** ** The terminal resolver *)

Lemma declared_kind_cases (P : string → Prop) (kind : string) :
  kind ∈ ComponentType →
  P "battery" → P "resistor" → P "led" → P "switch" → P "generator" →
  P "transformer" → P "bus" → P "breaker" → P "load" → P kind.
Proof.
  unfold ComponentType. intros H.
  repeat (apply elem_of_cons in H as [-> | H]; [tauto |]).
  by apply elem_of_nil in H.
Qed.

(** A literal type is one of the declared ones, by evaluation. *)
Ltac declared_kind := apply (bool_decide_unpack _); vm_compute; reflexivity.

(** The nine cases of a component [c] whose type is declared by [H]. *)
Ltac by_kind c H :=
  destruct c as [? kind ? ? ? ? ?]; simpl in *;
  pattern kind; apply (declared_kind_cases _ kind H); clear H kind.

(** What the resolver returns for a component of a declared kind, as a
    translation of its position. *)
Lemma getTerminalCoords_declared (c : DiagramComponent.t) (terminal : option string) :
  DiagramComponent.type c ∈ ComponentType →
  DiagramComponent.type c ≠ "bus" →
  getTerminalCoords (Some c) terminal =
    Some (Spec.translate (DiagramComponent.x c, DiagramComponent.y c)
            (match terminal ≫= Spec.named_offset (DiagramComponent.type c) with
             | Some offset => offset
             | None => Spec.default_offset (DiagramComponent.type c)
             end)).
Proof.
  intros H. by_kind c H; intros Hbus; try done;
    unfold getTerminalCoords, Spec.translate; simpl;
    rewrite ?num_sub_add, ?num_add_0_r;
    destruct terminal as [name|]; simpl; rewrite ?num_add_0_r; try reflexivity;
    unfold Spec.named_offset; simpl;
    repeat (destruct (String.eqb name _); simpl;
            rewrite ?num_add_0_r; try reflexivity).
Qed.

Lemma getTerminalCoords_bus (c : DiagramComponent.t) (terminal : option string) :
  DiagramComponent.type c = "bus" →
  getTerminalCoords (Some c) terminal =
    Some ((DiagramComponent.x c
           + (if isNaN (parseFloat terminal) then num 0 else parseFloat terminal))%js,
          DiagramComponent.y c).
Proof. destruct c; simpl. intros ->. reflexivity. Qed.

Lemma undeclared_kind (kind : string) :
  kind ∉ ComponentType →
  String.eqb kind "battery" = false ∧ String.eqb kind "resistor" = false
  ∧ String.eqb kind "led" = false ∧ String.eqb kind "switch" = false
  ∧ String.eqb kind "generator" = false ∧ String.eqb kind "transformer" = false
  ∧ String.eqb kind "bus" = false ∧ String.eqb kind "breaker" = false
  ∧ String.eqb kind "load" = false.
Proof.
  intros Hkind. repeat split; apply String.eqb_neq; intros ->; apply Hkind;
    apply (bool_decide_unpack _); vm_compute; reflexivity.
Qed.

(** The resolver answers exactly for the components of a declared type. *)
Lemma getTerminalCoords_is_Some (c : DiagramComponent.t) (terminal : option string) :
  is_Some (getTerminalCoords (Some c) terminal) ↔ DiagramComponent.type c ∈ ComponentType.
Proof.
  split.
  - intros Hsome. destruct (decide (DiagramComponent.type c ∈ ComponentType)) as [| Hkind];
      [done |].
    apply undeclared_kind in Hkind as (H1 & H2 & H3 & H4 & H5 & H6 & H7 & H8 & H9).
    unfold getTerminalCoords in Hsome.
    rewrite H1, H2, H3, H4, H5, H6, H7, H8, H9 in Hsome. by destruct Hsome.
  - intros Hkind.
    destruct (decide (DiagramComponent.type c = "bus")) as [Hbus | Hbus].
    + rewrite getTerminalCoords_bus by done. eauto.
    + rewrite getTerminalCoords_declared by done. eauto.
Qed.

Lemma getTerminalCoords_option_is_Some
    (component : option DiagramComponent.t) (terminal : option string) :
  is_Some (getTerminalCoords component terminal)
  ↔ ∃ c, component = Some c ∧ DiagramComponent.type c ∈ ComponentType.
Proof.
  destruct component as [c |].
  - rewrite getTerminalCoords_is_Some. split; [eauto |]. by intros (? & [= <-] & ?).
  - split; [intros [? ?]; discriminate | intros (? & ? & _); discriminate].
Qed.

(** C1 (as stated): a battery and the name [foo], which the table does not
    have for a battery: the resolver returns the negative terminal's point,
    not [null]. *)
Lemma C1_counterexample :
  DiagramComponent.type example_battery ∈ ComponentType
  ∧ Spec.recognized (DiagramComponent.type example_battery) (Some "foo") = false
  ∧ getTerminalCoords (Some example_battery) (Some "foo") = Some (num 50, num 70)
  ∧ getTerminalCoords (Some example_battery) (Some "foo") ≠ None.
Proof.
  split; [declared_kind |].
  split; [reflexivity |]. split; [reflexivity | discriminate].
Qed.

(** C1 (amended): for a component of a declared kind, a terminal name the
    table does not have for that kind resolves to the kind's default terminal
    (for a bus, the position of the bus itself): a point, never [null]. *)
Theorem C1_unrecognized_terminal_resolves_to_default
    (c : DiagramComponent.t) (terminal : option string) :
  DiagramComponent.type c ∈ ComponentType →
  Spec.recognized (DiagramComponent.type c) terminal = false →
  getTerminalCoords (Some c) terminal =
    Some (Spec.translate (DiagramComponent.x c, DiagramComponent.y c)
            (Spec.default_offset (DiagramComponent.type c))).
Proof.
  intros Hkind Hrec.
  destruct (decide (DiagramComponent.type c = "bus")) as [Hbus | Hbus].
  - rewrite getTerminalCoords_bus by done. rewrite Hbus in *.
    unfold Spec.recognized in Hrec. simpl in Hrec.
    apply negb_false_iff in Hrec. rewrite Hrec.
    change (Spec.default_offset "bus") with (0, 0)%Z.
    by rewrite translate_0_0, num_add_0_r.
  - rewrite getTerminalCoords_declared by done.
    unfold Spec.recognized in Hrec.
    apply String.eqb_neq in Hbus. rewrite Hbus in Hrec.
    destruct terminal as [name|]; simpl; [| done].
    apply bool_decide_eq_false in Hrec.
    destruct (Spec.named_offset _ name); [| done].
    exfalso. apply Hrec. eauto.
Qed.

Lemma C1_witness :
  getTerminalCoords (Some example_battery) (Some "foo") =
    Some (Spec.translate (num 50, num 50) (Spec.default_offset "battery")).
Proof.
  apply (C1_unrecognized_terminal_resolves_to_default example_battery (Some "foo")).
  - declared_kind.
  - reflexivity.
Defined.

(** C2 (as stated): a component that exists, held by the component map
    under its id, whose type is none of the declared ones: the resolver
    returns [null] for it, with a terminal name and without one. *)
Lemma C2_counterexample :
  componentMap [example_capacitor] !! "c1" = Some example_capacitor
  ∧ getTerminalCoords (componentMap [example_capacitor] !! "c1") (Some "in") = None
  ∧ getTerminalCoords (componentMap [example_capacitor] !! "c1") None = None.
Proof. split; [| split]; vm_compute; reflexivity. Qed.

(** C2 (amended): the resolver returns [null] exactly when the component does
    not exist or its type is none of the nine declared ones.  For an existing
    component of a declared kind it returns a point for every terminal name:
    a name of the table resolves to the position moved by its offset, any
    other name (for a kind other than bus) to the default terminal of the
    kind, and a bus to its position moved horizontally by the parsed
    offset. *)
Theorem C2_resolver_null_iff_missing_or_undeclared
    (component : option DiagramComponent.t) (terminal : option string) :
  (getTerminalCoords component terminal = None
   ↔ component = None
     ∨ ∃ c, component = Some c ∧ DiagramComponent.type c ∉ ComponentType)
  ∧ (∀ c, component = Some c → DiagramComponent.type c ∈ ComponentType →
       let position := (DiagramComponent.x c, DiagramComponent.y c) in
       let kind := DiagramComponent.type c in
       is_Some (getTerminalCoords component terminal)
       ∧ (∀ name offset,
            terminal = Some name → Spec.named_offset kind name = Some offset →
            getTerminalCoords component terminal = Some (Spec.translate position offset))
       ∧ (kind ≠ "bus" →
          (∀ name, terminal = Some name → Spec.named_offset kind name = None) →
          getTerminalCoords component terminal
          = Some (Spec.translate position (Spec.default_offset kind)))
       ∧ (kind = "bus" →
          getTerminalCoords component terminal
          = Some ((DiagramComponent.x c
                   + (if isNaN (parseFloat terminal) then num 0 else parseFloat terminal))%js,
                  DiagramComponent.y c))).
Proof.
  split.
  - destruct component as [c |]; [| split; [by left | done]].
    split.
    + intros Hnull. right. exists c. split; [done |].
      intros Hkind%(getTerminalCoords_is_Some c terminal).
      rewrite Hnull in Hkind. by destruct Hkind.
    + intros [[=] | (c' & [= <-] & Hkind)].
      destruct (getTerminalCoords (Some c) terminal) eqn:Hpoint; [| done].
      destruct Hkind. apply (getTerminalCoords_is_Some c terminal). by rewrite Hpoint.
  - intros c -> Hkind position kind.
    split; [by apply getTerminalCoords_is_Some |]. split; [| split].
    + intros name offset -> Hoff.
      assert (kind ≠ "bus") as Hbus.
      { intros Hbus. rewrite Hbus in Hoff. discriminate. }
      rewrite getTerminalCoords_declared by done. simpl.
      fold kind. by rewrite Hoff.
    + intros Hbus Hnone. rewrite getTerminalCoords_declared by done.
      destruct terminal as [name|]; simpl; [| done].
      fold kind. by rewrite (Hnone name eq_refl).
    + intros Hbus. by apply getTerminalCoords_bus.
Qed.

Lemma C2_witness :
  getTerminalCoords (Some example_transformer) (Some "primary") = Some (num 10, num 10)
  ∧ (getTerminalCoords (Some example_capacitor) (Some "primary") = None
     ↔ Some example_capacitor = None
       ∨ ∃ c, Some example_capacitor = Some c ∧ DiagramComponent.type c ∉ ComponentType).
Proof.
  split.
  - destruct (C2_resolver_null_iff_missing_or_undeclared
                (Some example_transformer) (Some "primary")) as [_ H].
    destruct (H example_transformer eq_refl) as (_ & Hnamed & _).
    + declared_kind.
    + apply (Hnamed "primary" (0, -30)%Z); reflexivity.
  - apply (C2_resolver_null_iff_missing_or_undeclared (Some example_capacitor) (Some "primary")).
Defined.

(** C7: on a bus at [(x, y)] a terminal that [parseFloat] reads as the number
    [t] resolves to [(x + t, y)] and one it does not read as a number
    resolves to [(x, y)]; the terminal [-40] on a bus at [x = 100] resolves to
    [(60, y)]. *)
Theorem C7_bus_terminal_is_horizontal_offset
    (c : DiagramComponent.t) (terminal : option string) :
  DiagramComponent.type c = "bus" →
  let '(x, y) := (DiagramComponent.x c, DiagramComponent.y c) in
  (∀ t, parseFloat terminal = t → isNaN t = false →
        getTerminalCoords (Some c) terminal = Some ((x + t)%js, y))
  ∧ (isNaN (parseFloat terminal) = true →
     getTerminalCoords (Some c) terminal = Some (x, y))
  ∧ (x = num 100 → getTerminalCoords (Some c) (Some "-40") = Some (num 60, y)).
Proof.
  intros Hbus. split; [| split].
  - intros t <- Hnum. rewrite getTerminalCoords_bus by done. by rewrite Hnum.
  - intros Hnan. rewrite getTerminalCoords_bus by done.
    by rewrite Hnan, num_add_0_r.
  - intros Hx. rewrite getTerminalCoords_bus by done. rewrite Hx. reflexivity.
Qed.

Lemma C7_witness :
  getTerminalCoords (Some example_bus) (Some "-40") = Some (num 60, num 80).
Proof.
  pose proof (C7_bus_terminal_is_horizontal_offset example_bus (Some "-40") eq_refl) as H.
  simpl in H. destruct H as (Hnum & _ & _).
  apply (Hnum (num (-40))); reflexivity.
Defined.

(** ** The switch symbol *)

(** The resolver reads the type and the position of a component only. *)
Lemma getTerminalCoords_ext (c c' : DiagramComponent.t) (terminal : option string) :
  DiagramComponent.type c = DiagramComponent.type c' →
  DiagramComponent.x c = DiagramComponent.x c' →
  DiagramComponent.y c = DiagramComponent.y c' →
  getTerminalCoords (Some c) terminal = getTerminalCoords (Some c') terminal.
Proof. destruct c, c'; simpl. by intros -> -> ->. Qed.

(** C9: the moving contact of a switch is rotated by [-30] when the state is
    [open] or absent and by [0] when it is [closed], about the contact point
    [(-5, 0)] on the [in] side; the symbol of a switch is a function of its
    state alone, so two renders with the same state rotate alike; and the
    terminal points of a component are a function of its type and position,
    not of its state. *)
Theorem C9_switch_rotation_follows_state :
  rotation (Some "open") = "-30"
  ∧ rotation (Some "closed") = "0"
  ∧ rotation None = "-30"
  ∧ (∀ state, contact_arm (drawSwitch state) ≫= attribute "transform"
              = Some [Lit ("rotate(" +:+ rotation state +:+ " -5 0)")])
  ∧ (∀ c, DiagramComponent.type c = "switch" →
          componentSvg c = Some (drawSwitch (DiagramComponent.state c)))
  ∧ (∀ c c', DiagramComponent.type c = "switch" → DiagramComponent.type c' = "switch" →
             DiagramComponent.state c = DiagramComponent.state c' →
             componentSvg c = componentSvg c')
  ∧ (∀ c c' terminal,
       DiagramComponent.type c = DiagramComponent.type c' →
       DiagramComponent.x c = DiagramComponent.x c' →
       DiagramComponent.y c = DiagramComponent.y c' →
       getTerminalCoords (Some c) terminal = getTerminalCoords (Some c') terminal).
Proof.
  repeat split; try reflexivity.
  - intros c Hc. unfold componentSvg. rewrite Hc. reflexivity.
  - intros c c' Hc Hc' Hstate. unfold componentSvg. rewrite Hc, Hc', Hstate. reflexivity.
  - intros c c' terminal. apply getTerminalCoords_ext.
Qed.

Lemma C9_witness :
  componentSvg (example_switch (Some "closed"))
  = componentSvg (DiagramComponent.mk "s2" "switch" (num 0) (num 0) "S2" (Some "closed") None)
  ∧ getTerminalCoords (Some (example_switch (Some "open"))) (Some "in")
    = getTerminalCoords (Some (example_switch (Some "closed"))) (Some "in").
Proof.
  destruct C9_switch_rotation_follows_state as (_ & _ & _ & _ & _ & Hsame & Hterminals).
  split.
  - apply Hsame; reflexivity.
  - apply Hterminals; reflexivity.
Defined.

(** ** References *)

Lemma split_no_dot (s : string) : has_dot s = false → split "." s = [s].
Proof.
  induction s as [| c r IH]; simpl; [done |].
  intros [Hc Hr]%orb_false_iff. rewrite Hc, (IH Hr). reflexivity.
Qed.

Lemma split_app_dot (a b : string) :
  has_dot a = false → split "." (a +:+ "." +:+ b) = a :: split "." b.
Proof.
  induction a as [| c r IH]; simpl; [done |].
  intros [Hc Hr]%orb_false_iff. rewrite Hc, (IH Hr). reflexivity.
Qed.

Lemma getTerminalCoords_undefined (c : DiagramComponent.t) :
  DiagramComponent.type c ∈ ComponentType →
  getTerminalCoords (Some c) None =
    Some (Spec.translate (DiagramComponent.x c, DiagramComponent.y c)
            (Spec.default_offset (DiagramComponent.type c))).
Proof.
  intros Hkind.
  destruct (decide (DiagramComponent.type c = "bus")) as [Hbus | Hbus].
  - rewrite getTerminalCoords_bus by done. rewrite Hbus.
    change (Spec.default_offset "bus") with (0, 0)%Z.
    rewrite translate_0_0. change (isNaN (parseFloat None)) with true.
    by rewrite num_add_0_r.
  - by rewrite getTerminalCoords_declared.
Qed.

(** C10 (as stated): a reference without a dot whose id is that of an
    existing component, of a type that is none of the declared ones: the
    endpoint resolves to [null] and the connection is skipped. *)
Lemma C10_counterexample :
  has_dot "c1" = false
  ∧ componentMap [example_capacitor; example_battery] !! "c1" = Some example_capacitor
  ∧ endpoint (componentMap [example_capacitor; example_battery]) "c1" = None
  ∧ wire_of (componentMap [example_capacitor; example_battery])
      (DiagramConnection.mk "c1" "b1.positive") = None.
Proof. repeat split; vm_compute; reflexivity. Qed.

(** C10 (amended): a reference without a dot is the component id as a whole,
    with an undefined terminal, so its endpoint is what the resolver returns
    for the component of that id and no terminal name: the default terminal
    of the kind when the component exists and its type is declared, [null]
    (the connection is skipped) when its type is none of the declared ones or
    no component has the id.  What follows a second dot of a reference is
    ignored. *)
Theorem C10_reference_without_terminal (m : gmap string DiagramComponent.t) :
  (∀ reference, has_dot reference = false →
     split "." reference !! 0%nat = Some reference
     ∧ split "." reference !! 1%nat = None
     ∧ endpoint m reference = getTerminalCoords (m !! reference) None)
  ∧ (∀ reference c, has_dot reference = false → m !! reference = Some c →
       (DiagramComponent.type c ∈ ComponentType →
        endpoint m reference
        = Some (Spec.translate (DiagramComponent.x c, DiagramComponent.y c)
                  (Spec.default_offset (DiagramComponent.type c))))
       ∧ (DiagramComponent.type c ∉ ComponentType → endpoint m reference = None))
  ∧ (∀ reference, has_dot reference = false → m !! reference = None →
       endpoint m reference = None)
  ∧ (∀ id terminal rest,
       has_dot id = false → has_dot terminal = false →
       endpoint m (id +:+ "." +:+ terminal +:+ "." +:+ rest)
       = endpoint m (id +:+ "." +:+ terminal)).
Proof.
  assert (∀ reference, has_dot reference = false →
            endpoint m reference = getTerminalCoords (m !! reference) None) as Hend.
  { intros reference Hdot. unfold endpoint. by rewrite (split_no_dot _ Hdot). }
  split; [| split; [| split]].
  - intros reference Hdot. rewrite (split_no_dot _ Hdot). by rewrite <- (Hend _ Hdot).
  - intros reference c Hdot Hc. rewrite (Hend _ Hdot), Hc. split.
    + apply getTerminalCoords_undefined.
    + intros Hkind. destruct (getTerminalCoords (Some c) None) eqn:Hpoint; [| done].
      destruct Hkind. apply (getTerminalCoords_is_Some c None). by rewrite Hpoint.
  - intros reference Hdot Hc. by rewrite (Hend _ Hdot), Hc.
  - intros id terminal rest Hid Hterm. unfold endpoint.
    rewrite !split_app_dot by done. rewrite (split_no_dot _ Hterm). reflexivity.
Qed.

Lemma C10_witness :
  endpoint (componentMap [example_bus; example_generator]) "gen1" = Some (num 20, num 60)
  ∧ endpoint (componentMap [example_bus; example_generator]) "gen1.out.extra"
    = endpoint (componentMap [example_bus; example_generator]) "gen1.out".
Proof.
  destruct (C10_reference_without_terminal (componentMap [example_bus; example_generator]))
    as (_ & Hdefault & _ & Hsecond).
  split.
  - destruct (Hdefault "gen1" example_generator) as [H _].
    + reflexivity.
    + vm_compute. reflexivity.
    + rewrite H; [reflexivity | declared_kind].
  - apply (Hsecond "gen1" "out" "extra"); reflexivity.
Defined.

(** ** The two loops of [renderDiagram] *)

Lemma foldl_draw_connection (m : gmap string DiagramComponent.t)
    (conns : list DiagramConnection.t) (children : list SVGNode) :
  foldl (draw_connection m) children conns = children ++ omap (wire_of m) conns.
Proof.
  revert children. induction conns as [| conn conns IH]; intros children; simpl.
  - by rewrite app_nil_r.
  - rewrite IH. unfold draw_connection.
    destruct (wire_of m conn); [by rewrite <- app_assoc | done].
Qed.

Lemma foldl_draw_component (components : list DiagramComponent.t) (children : list SVGNode) :
  foldl draw_component children components = children ++ map group_of components.
Proof.
  revert children. induction components as [| c cs IH]; intros children; simpl.
  - by rewrite app_nil_r.
  - rewrite IH. unfold draw_component. by rewrite <- app_assoc.
Qed.

(** The children of [svg]: the wires of the connections that resolve, in the
    order of the connections, then one group per component, in the order of
    the components. *)
Lemma svg_children_spec (data : DiagramData.t) :
  svg_children data
  = omap (wire_of (componentMap (DiagramData.components data))) (DiagramData.connections data)
    ++ map group_of (DiagramData.components data).
Proof. unfold svg_children. by rewrite foldl_draw_component, foldl_draw_connection. Qed.

Section Wires.
Context (m : gmap string DiagramComponent.t).
Implicit Types (conn : DiagramConnection.t) (conns : list DiagramConnection.t).

Lemma wire_of_is_wire conn line : wire_of m conn = Some line → is_wire line.
Proof.
  unfold wire_of.
  destruct (endpoint m (DiagramConnection.from conn)), (endpoint m (DiagramConnection.to conn));
    try discriminate.
  by intros [= <-].
Qed.

Lemma wire_of_resolves conn : resolves m conn ↔ is_Some (wire_of m conn).
Proof.
  unfold resolves, wire_of.
  destruct (endpoint m (DiagramConnection.from conn)), (endpoint m (DiagramConnection.to conn));
    split; try (intros [[? ?] [? ?]]; discriminate); try (intros [? ?]; discriminate); eauto.
Qed.

Lemma wire_of_dangling conn : dangling m conn → wire_of m conn = None.
Proof.
  unfold dangling, referenced, wire_of, endpoint.
  intros [H | H]; rewrite H; simpl; [done |].
  by destruct (getTerminalCoords _ _).
Qed.

Lemma omap_wire_of_resolving conns :
  Forall (resolves m) conns →
  length (omap (wire_of m) conns) = length conns.
Proof.
  induction 1 as [| conn conns [line Hline]%wire_of_resolves _ IH]; [done |].
  cbn [omap list_omap]. rewrite Hline. cbn [length]. by rewrite IH.
Qed.

Lemma omap_wire_of_are_wires conns : Forall is_wire (omap (wire_of m) conns).
Proof.
  apply Forall_forall. intros line [conn [_ Hline]]%list_elem_of_omap.
  by eapply wire_of_is_wire.
Qed.

End Wires.

Lemma group_of_are_groups (components : list DiagramComponent.t) :
  Forall is_component_group (map group_of components).
Proof. apply Forall_forall. by intros g [c [-> _]]%list_elem_of_fmap. Qed.

(** C6: when one connection names a component that does not exist and the
    other [N] connections resolve at both ends, the drawing holds exactly
    the [N] wires of those connections, nothing for the dangling one, and
    after them the group of every component. *)
Theorem C6_dangling_connection_is_skipped
    (data : DiagramData.t) (before after : list DiagramConnection.t)
    (bad : DiagramConnection.t) :
  let m := componentMap (DiagramData.components data) in
  DiagramData.connections data = before ++ bad :: after →
  dangling m bad →
  Forall (resolves m) (before ++ after) →
  svg_children data
  = omap (wire_of m) (before ++ after) ++ map group_of (DiagramData.components data)
  ∧ length (omap (wire_of m) (before ++ after)) = length (before ++ after)
  ∧ Forall is_wire (omap (wire_of m) (before ++ after))
  ∧ Forall is_component_group (map group_of (DiagramData.components data))
  ∧ length (map group_of (DiagramData.components data))
    = length (DiagramData.components data).
Proof.
  intros m Hconns Hbad Hgood.
  split; [| split; [| split; [| split]]].
  - rewrite svg_children_spec, Hconns. fold m.
    rewrite !omap_app. simpl. by rewrite (wire_of_dangling _ _ Hbad).
  - by apply omap_wire_of_resolving.
  - apply omap_wire_of_are_wires.
  - apply group_of_are_groups.
  - by rewrite length_map.
Qed.

Lemma C6_witness :
  length (filter (λ node, tag_of node = "line") (svg_children example_diagram)) = 2
  ∧ length (filter (λ node, tag_of node = "g") (svg_children example_diagram)) = 2.
Proof.
  pose proof (C6_dangling_connection_is_skipped example_diagram
                [DiagramConnection.mk "bus1.-40" "gen1.out"]
                [DiagramConnection.mk "gen1" "bus1.10.5"]
                (DiagramConnection.mk "nowhere.in" "gen1.out")) as H.
  destruct H as (-> & _).
  - reflexivity.
  - left. vm_compute. reflexivity.
  - repeat constructor; vm_compute; eauto.
  - vm_compute. split; reflexivity.
Defined.

(** The [svg] element of the rendered diagram has the children computed by
    the two loops. *)
Lemma renderDiagram_children (data : DiagramData.t) :
  ∃ attrs attrs', renderDiagram data = Elem "div" attrs [Elem "svg" attrs' (svg_children data)].
Proof. unfold renderDiagram. eauto. Qed.

(** C8: in the children of [svg], every wire stands before every component
    group (symbol and label): the connections are all drawn before the first
    component. *)
Theorem C8_wires_precede_components
    (data : DiagramData.t) (i j : nat) (line group : SVGNode) :
  svg_children data !! i = Some line → is_wire line →
  svg_children data !! j = Some group → is_component_group group →
  i < j.
Proof.
  rewrite svg_children_spec.
  set (wires := omap _ _). set (groups := map _ _).
  assert (Forall is_wire wires) as Hwires by apply omap_wire_of_are_wires.
  assert (Forall is_component_group groups) as Hgroups by apply group_of_are_groups.
  intros Hi Hline Hj Hgroup.
  assert (i < length wires) as Hi_lt.
  { destruct (decide (i < length wires)) as [| Hge]; [done |].
    rewrite lookup_app_r in Hi by lia.
    eapply Forall_lookup_1 in Hi; [| exact Hgroups].
    unfold is_wire, is_component_group in *. congruence. }
  assert (length wires ≤ j) as Hj_ge.
  { destruct (decide (j < length wires)) as [Hlt |]; [| lia].
    rewrite lookup_app_l in Hj by done.
    eapply Forall_lookup_1 in Hj; [| exact Hwires].
    unfold is_wire, is_component_group in *. congruence. }
  lia.
Qed.

Lemma C8_witness :
  ∃ line group,
    svg_children example_diagram !! 1 = Some line
    ∧ svg_children example_diagram !! 2 = Some group
    ∧ is_wire line ∧ is_component_group group ∧ 1 < 2.
Proof.
  eexists _, _. split; [reflexivity |]. split; [reflexivity |].
  split; [reflexivity |]. split; [reflexivity |].
  eapply (C8_wires_precede_components example_diagram 1 2); reflexivity.
Defined.

(** ** Strings *)

#[local] Arguments String.append : simpl nomatch.

Lemma append_nil_r (s : string) : s +:+ "" = s.
Proof. induction s as [| c s IH]; simpl; [done | by rewrite IH]. Qed.

Lemma append_assoc (a b c : string) : (a +:+ b) +:+ c = a +:+ b +:+ c.
Proof. induction a as [| x a IH]; simpl; [done | by rewrite IH]. Qed.

Lemma length_append (a b : string) :
  String.length (a +:+ b) = String.length a + String.length b.
Proof. induction a as [| x a IH]; simpl; [done | by rewrite IH]. Qed.

Lemma append_inj_length (a a' b b' : string) :
  a +:+ b = a' +:+ b' → String.length a = String.length a' → a = a' ∧ b = b'.
Proof.
  revert a'. induction a as [| x a IH]; intros [| x' a']; simpl; try done.
  intros [= -> Heq] [= Hlen]. destruct (IH _ Heq Hlen) as [-> ->]. done.
Qed.

Lemma strip_spec (p s r : string) : strip p s = Some r ↔ s = p +:+ r.
Proof.
  revert s. induction p as [| a p IH]; intros s; simpl.
  - split; congruence.
  - destruct s as [| b s]; [split; discriminate |].
    destruct (Ascii.eqb_spec a b) as [-> | Hne].
    + rewrite IH. split; congruence.
    + split; [discriminate | congruence].
Qed.

(** ** The fenced block *)

Lemma lazy_group_sound (s g : string) :
  lazy_group s = Some g →
  ∃ post, s = g +:+ FENCE_CLOSE +:+ post
          ∧ ∀ g' post', s = g' +:+ FENCE_CLOSE +:+ post' → String.length g ≤ String.length g'.
Proof.
  revert g. induction s as [| c r IH]; intros g; cbn [lazy_group].
  - done.
  - destruct (strip FENCE_CLOSE (String c r)) as [post |] eqn:Hstrip.
    + intros [= <-]. apply strip_spec in Hstrip. exists post. split; [done |].
      intros; simpl; lia.
    + destruct (lazy_group r) as [g0 |] eqn:Hg0; simpl; [| done].
      intros [= <-]. destruct (IH g0 eq_refl) as (post & -> & Hmin).
      exists post. split; [done |].
      intros [| c' g'] post' Heq.
      * apply (strip_spec FENCE_CLOSE) in Heq. congruence.
      * injection Heq as -> Heq. simpl. apply Hmin in Heq. lia.
Qed.

Lemma lazy_group_complete (g post : string) :
  is_Some (lazy_group (g +:+ FENCE_CLOSE +:+ post)).
Proof.
  induction g as [| c g IH].
  - simpl. eauto.
  - cbn [String.append lazy_group].
    destruct (strip FENCE_CLOSE _); [eauto |].
    destruct IH as [g0 ->]. simpl. eauto.
Qed.

Lemma fenced_block_complete (pre g post : string) :
  is_Some (fenced_block (pre +:+ FENCE_OPEN +:+ g +:+ FENCE_CLOSE +:+ post)).
Proof.
  induction pre as [| c pre IH].
  - destruct (lazy_group_complete g post) as [g0 Hg0].
    change ("" +:+ FENCE_OPEN +:+ g +:+ FENCE_CLOSE +:+ post)
      with (String "`" (String "`" (String "`" (String "j" (String "s" (String "o"
             (String "n" (String LF (g +:+ FENCE_CLOSE +:+ post))))))))).
    cbn [fenced_block].
    replace (strip FENCE_OPEN _) with (Some (g +:+ FENCE_CLOSE +:+ post))
      by (symmetry; by apply strip_spec).
    cbn [mbind option_bind]. rewrite Hg0. eauto.
  - cbn [String.append fenced_block].
    destruct (strip FENCE_OPEN _ ≫= lazy_group); eauto.
Qed.

Lemma fenced_block_sound (s g : string) : fenced_block s = Some g → first_fence s g.
Proof.
  revert g. induction s as [| c r IH]; intros g.
  - simpl. done.
  - cbn [fenced_block].
    destruct (strip FENCE_OPEN (String c r)) as [rest |] eqn:Hstrip; cbn [mbind option_bind].
    + destruct (lazy_group rest) as [g0 |] eqn:Hg0.
      * intros [= <-]. apply strip_spec in Hstrip.
        destruct (lazy_group_sound _ _ Hg0) as (post & -> & Hmin).
        exists "", post. split; [done |]. split; [intros; simpl; lia |].
        intros g' post' Heq. rewrite Hstrip in Heq.
        apply (inj (String.append FENCE_OPEN) _ (g' +:+ FENCE_CLOSE +:+ post')) in Heq.
        by apply Hmin in Heq.
      * intros Hr. destruct (IH _ Hr) as (pre & post & -> & Hleft & Hmin).
        exists (String c pre), post. split; [done |]. split.
        -- intros [| c' pre'] g' post' Heq.
           ++ apply strip_spec in Hstrip. rewrite Hstrip in Heq.
              apply (inj (String.append FENCE_OPEN) _ (g' +:+ FENCE_CLOSE +:+ post')) in Heq.
              destruct (lazy_group_complete g' post') as [g1 Hg1].
              rewrite <- Heq in Hg1. congruence.
           ++ injection Heq as -> Heq. simpl. apply Hleft in Heq. lia.
        -- intros g' post' Heq. injection Heq as Heq. by apply Hmin in Heq.
    + intros Hr. destruct (IH _ Hr) as (pre & post & -> & Hleft & Hmin).
      exists (String c pre), post. split; [done |]. split.
      * intros [| c' pre'] g' post' Heq.
        -- apply (strip_spec FENCE_OPEN) in Heq. congruence.
        -- injection Heq as -> Heq. simpl. apply Hleft in Heq. lia.
      * intros g' post' Heq. injection Heq as Heq. by apply Hmin in Heq.
Qed.

Lemma first_fence_unique (s g g' : string) : first_fence s g → first_fence s g' → g = g'.
Proof.
  intros (pre & post & Hs & Hleft & Hmin) (pre' & post' & Hs' & Hleft' & Hmin').
  assert (String.length pre = String.length pre') as Hlen.
  { apply Nat.le_antisymm; [by eapply Hleft | by eapply Hleft']. }
  assert (pre = pre') as <-.
  { rewrite Hs in Hs'. by apply append_inj_length in Hs' as [? _]. }
  assert (String.length g = String.length g') as Hlen'.
  { apply Nat.le_antisymm; [by eapply Hmin | by eapply Hmin']. }
  rewrite Hs in Hs'. apply append_inj_length in Hs' as [_ Hs']; [| done].
  apply append_inj_length in Hs' as [_ Hs']; [| done].
  by apply append_inj_length in Hs' as [? _].
Qed.

Lemma fenced_block_first_fence (s g : string) : fenced_block s = Some g ↔ first_fence s g.
Proof.
  split; [apply fenced_block_sound |].
  intros Hfirst. destruct Hfirst as (pre & post & Hs & Hrest) eqn:E. clear E.
  destruct (fenced_block_complete pre g post) as [g0 Hg0]. rewrite <- Hs in Hg0.
  rewrite Hg0. f_equal. eapply first_fence_unique; [by apply fenced_block_sound |].
  exists pre, post. by split.
Qed.

(** ** [JSON.parse]: the fuel is enough *)

Lemma skip_ws_length (s : string) : String.length (JSON.skip_ws s) ≤ String.length s.
Proof.
  induction s as [| c r IH]; simpl; [done |].
  destruct (JSON.is_ws c); simpl; lia.
Qed.

Lemma digits_length (s : string) (acc : N) (n : nat) :
  String.length (digits acc n s).2 ≤ String.length s.
Proof.
  revert acc n. induction s as [| c r IH]; intros acc n; simpl; [done |].
  destruct (digit_val c); simpl; [| lia]. specialize (IH (acc * 10 + n0)%N (S n)). lia.
Qed.

Lemma exponent_part_length (s r : string) (e : Z) :
  exponent_part s = Some (e, r) → String.length r ≤ String.length s.
Proof.
  unfold exponent_part. destruct s as [| c s]; [done |].
  destruct (_ || _); [| done].
  set (p := match s with
            | String sg r' =>
                if (sg =? "-")%char then (true, r')
                else if (sg =? "+")%char then (false, r') else (false, s)
            | EmptyString => (false, s)
            end).
  assert (String.length p.2 ≤ String.length s) as Hp.
  { subst p. destruct s as [| sg r']; simpl; [done |].
    destruct (sg =? "-")%char; simpl; [lia |]. destruct (sg =? "+")%char; simpl; lia. }
  destruct p as [eneg r1]. simpl in Hp.
  pose proof (digits_length r1 0 0) as Hd.
  destruct (digits 0 0 r1) as [[e' k] r2]. simpl in Hd.
  destruct k; [done |]. intros [= _ <-]. simpl. lia.
Qed.

Lemma parse_number_length (s r : string) (n : number) :
  JSON.parse_number s = JSON.Ok n r → String.length r < String.length s.
Proof.
  unfold JSON.parse_number.
  set (p := match s with
            | String sg r => if (sg =? "-")%char then (true, r) else (false, s)
            | EmptyString => (false, s)
            end).
  assert (String.length p.2 ≤ String.length s) as Hp.
  { subst p. destruct s as [| sg r']; simpl; [done |].
    destruct (sg =? "-")%char; simpl; lia. }
  destruct p as [neg s1]. simpl in Hp.
  destruct s1 as [| c r0]; [done |].
  destruct (digit_val c) as [d |] eqn:Hd; [| done].
  set (q := if (d =? 0)%N then (0%N, 1, r0) else digits 0 0 (String c r0)).
  assert (String.length q.2 ≤ String.length r0) as Hq.
  { subst q. destruct (d =? 0)%N; simpl; [done |]. rewrite Hd. apply digits_length. }
  destruct q as [[m k] r1]. simpl in Hq, Hp.
  assert (∀ m nf r2, String.length r2 ≤ String.length r1 →
            match r2 with
            | String c2 _ =>
                if ((c2 =? "e") || (c2 =? "E"))%char
                then match exponent_part r2 with
                     | Some (e, r3) => JSON.Ok (decimal neg m (e - Z.of_nat nf)) r3
                     | None => JSON.SyntaxError
                     end
                else JSON.Ok (decimal neg m (- Z.of_nat nf)) r2
            | EmptyString => JSON.Ok (decimal neg m (- Z.of_nat nf)) r2
            end = JSON.Ok n r → String.length r < String.length s) as Hafter.
  { intros m' nf r2 Hr2. destruct r2 as [| c2 r2'].
    - intros [= _ <-]. simpl in *. lia.
    - destruct (_ || _).
      + destruct (exponent_part _) as [[e r3] |] eqn:He; [| done].
        apply exponent_part_length in He. intros [= _ <-]. simpl in *. lia.
      + intros [= _ <-]. simpl in *. lia. }
  destruct r1 as [| c1 r1'].
  - apply (Hafter m 0 ""). done.
  - destruct (c1 =? ".")%char.
    + pose proof (digits_length r1' m 0) as Hd'.
      destruct (digits m 0 r1') as [[m' nf] r2]. simpl in Hd'.
      destruct nf; [done |]. apply (Hafter m' (S nf) r2). simpl. lia.
    + apply (Hafter m 0 (String c1 r1')). done.
Qed.

Lemma push_Ok {A} (x : A) (m : JSON.result (list A)) (l : list A) (r : string) :
  JSON.push x m = JSON.Ok l r → ∃ l', m = JSON.Ok l' r ∧ l = x :: l'.
Proof. destruct m; simpl; try done. intros [= <- <-]. eauto. Qed.

Lemma string_chars_length (s r : string) (l : list (ascii + N)) :
  JSON.string_chars s = JSON.Ok l r → String.length r < String.length s.
Proof.
  remember (String.length s) as n eqn:Hn. revert s l Hn.
  induction n as [n IH] using lt_wf_ind. intros s l ->.
  destruct s as [| c s]; [done |]. cbn [JSON.string_chars].
  destruct (c =? DQ)%char; [intros [= _ <-]; simpl; lia |].
  destruct (c =? BACKSLASH)%char.
  - destruct s as [| e r1]; [done |].
    destruct (e =? "u")%char.
    + destruct r1 as [| h1 [| h2 [| h3 [| h4 r2]]]]; try done.
      destruct (JSON.hex4 h1 h2 h3 h4); [| done].
      intros (l' & Hl' & _)%push_Ok.
      eapply IH in Hl'; [| | reflexivity]; simpl in *; lia.
    + destruct (JSON.simple_escape e); [| done].
      intros (l' & Hl' & _)%push_Ok.
      eapply IH in Hl'; [| | reflexivity]; simpl in *; lia.
  - destruct (code c <? 32)%N; [done |].
    intros (l' & Hl' & _)%push_Ok.
    eapply IH in Hl'; [| | reflexivity]; simpl in *; lia.
Qed.

Lemma literal_length (word : string) (v v' : JSON.value) (s r : string) :
  word ≠ "" → JSON.literal word v s = JSON.Ok v' r → String.length r < String.length s.
Proof.
  unfold JSON.literal. intros Hword.
  destruct (strip word s) as [r' |] eqn:Hstrip; [| done].
  intros [= _ <-]. apply strip_spec in Hstrip as ->. rewrite length_append.
  destruct word; [done | simpl; lia].
Qed.

(** A successful parser leaves less than it was given. *)
Lemma parse_consumes (fuel : nat) :
  (∀ s v r, JSON.parse_value fuel s = JSON.Ok v r → String.length r < String.length s)
  ∧ (∀ s vs r, JSON.parse_elements fuel s = JSON.Ok vs r → String.length r < String.length s)
  ∧ (∀ s ms r, JSON.parse_members fuel s = JSON.Ok ms r → String.length r < String.length s).
Proof.
  induction fuel as [| fuel (IHv & IHe & IHm)]; [by repeat split |].
  split; [| split].
  - intros s v r. cbn [JSON.parse_value].
    destruct s as [| c s']; [done |].
    destruct (c =? "{")%char.
    { pose proof (skip_ws_length s') as Hws.
      destruct (JSON.skip_ws s') as [| c' r'] eqn:Hskip; [done |].
      destruct (c' =? "}")%char; [intros [= _ <-]; simpl in *; lia |].
      destruct (JSON.parse_members fuel _) as [ms r1 | |] eqn:Hm; try done.
      apply IHm in Hm. intros [= _ <-]. simpl in *. lia. }
    destruct (c =? "[")%char.
    { pose proof (skip_ws_length s') as Hws.
      destruct (JSON.skip_ws s') as [| c' r'] eqn:Hskip; [done |].
      destruct (c' =? "]")%char; [intros [= _ <-]; simpl in *; lia |].
      destruct (JSON.parse_elements fuel _) as [vs r1 | |] eqn:He; try done.
      apply IHe in He. intros [= _ <-]. simpl in *. lia. }
    destruct (c =? DQ)%char.
    { destruct (JSON.string_chars s') as [u r1 | |] eqn:Hu; try done.
      apply string_chars_length in Hu. intros [= _ <-]. simpl. lia. }
    destruct (c =? "t")%char; [by apply literal_length |].
    destruct (c =? "f")%char; [by apply literal_length |].
    destruct (c =? "n")%char; [by apply literal_length |].
    destruct (JSON.parse_number _) as [n r1 | |] eqn:Hn; try done.
    apply parse_number_length in Hn. by intros [= _ <-].
  - intros s vs r. cbn [JSON.parse_elements].
    destruct (JSON.parse_value fuel s) as [v r0 | |] eqn:Hv; try done.
    apply IHv in Hv. pose proof (skip_ws_length r0) as Hws.
    destruct (JSON.skip_ws r0) as [| c r1]; [done |].
    destruct (c =? ",")%char.
    { intros (l' & Hl' & _)%push_Ok. apply IHe in Hl'.
      pose proof (skip_ws_length r1). simpl in *. lia. }
    destruct (c =? "]")%char; [| done]. intros [= _ <-]. simpl in *. lia.
  - intros s ms r. cbn [JSON.parse_members].
    destruct s as [| q s']; [done |].
    destruct (q =? DQ)%char; [| done].
    destruct (JSON.string_chars s') as [u r1 | |] eqn:Hu; try done.
    apply string_chars_length in Hu. pose proof (skip_ws_length r1) as Hws1.
    destruct (JSON.skip_ws r1) as [| c r2]; [done |].
    destruct (c =? ":")%char; [| done].
    destruct (JSON.parse_value fuel _) as [v r3 | |] eqn:Hv; try done.
    apply IHv in Hv. pose proof (skip_ws_length r2) as Hws2.
    pose proof (skip_ws_length r3) as Hws3.
    destruct (JSON.skip_ws r3) as [| c' r4]; [done |].
    destruct (c' =? ",")%char.
    { intros (l' & Hl' & _)%push_Ok. apply IHm in Hl'.
      pose proof (skip_ws_length r4). simpl in *. lia. }
    destruct (c' =? "}")%char; [| done]. intros [= _ <-]. simpl in *. lia.
Qed.

Lemma push_fuel {A} (x : A) (m : JSON.result (list A)) :
  JSON.push x m = JSON.OutOfFuel → m = JSON.OutOfFuel.
Proof. by destruct m. Qed.

Lemma string_chars_fuel (s : string) : JSON.string_chars s ≠ JSON.OutOfFuel.
Proof.
  remember (String.length s) as n eqn:Hn. revert s Hn.
  induction n as [n IH] using lt_wf_ind. intros s ->.
  destruct s as [| c s]; [done |]. cbn [JSON.string_chars].
  destruct (c =? DQ)%char; [done |].
  destruct (c =? BACKSLASH)%char.
  - destruct s as [| e r1]; [done |].
    destruct (e =? "u")%char.
    + destruct r1 as [| h1 [| h2 [| h3 [| h4 r2]]]]; try done.
      destruct (JSON.hex4 h1 h2 h3 h4); [| done].
      intros Hf%push_fuel. eapply IH in Hf; [done | | reflexivity]. simpl; lia.
    + destruct (JSON.simple_escape e); [| done].
      intros Hf%push_fuel. eapply IH in Hf; [done | | reflexivity]. simpl; lia.
  - destruct (code c <? 32)%N; [done |].
    intros Hf%push_fuel. eapply IH in Hf; [done | | reflexivity]. simpl; lia.
Qed.

Lemma parse_number_fuel (s : string) : JSON.parse_number s ≠ JSON.OutOfFuel.
Proof.
  unfold JSON.parse_number. repeat case_match; done.
Qed.

(** With more fuel than twice the length of the text, no parser runs out. *)
Lemma fuel_adequate (fuel : nat) :
  (∀ s, 2 * String.length s < fuel → JSON.parse_value fuel s ≠ JSON.OutOfFuel)
  ∧ (∀ s, 2 * String.length s + 1 < fuel → JSON.parse_elements fuel s ≠ JSON.OutOfFuel)
  ∧ (∀ s, 2 * String.length s < fuel → JSON.parse_members fuel s ≠ JSON.OutOfFuel).
Proof.
  induction fuel as [| fuel (IHv & IHe & IHm)]; [repeat split; intros; lia |].
  destruct (parse_consumes fuel) as (Cv & Ce & Cm).
  split; [| split].
  - intros s Hs. cbn [JSON.parse_value].
    destruct s as [| c s']; [done |]. simpl in Hs.
    pose proof (skip_ws_length s') as Hws.
    destruct (c =? "{")%char.
    { destruct (JSON.skip_ws s') as [| c' r'] eqn:Hskip; [done |].
      destruct (c' =? "}")%char; [done |].
      destruct (JSON.parse_members fuel _) eqn:Hm; try done.
      apply IHm in Hm; [done | lia]. }
    destruct (c =? "[")%char.
    { destruct (JSON.skip_ws s') as [| c' r'] eqn:Hskip; [done |].
      destruct (c' =? "]")%char; [done |].
      destruct (JSON.parse_elements fuel _) eqn:He; try done.
      apply IHe in He; [done | lia]. }
    destruct (c =? DQ)%char.
    { pose proof (string_chars_fuel s'). by destruct (JSON.string_chars s'). }
    unfold JSON.literal.
    destruct (c =? "t")%char; [by destruct (strip _ _) |].
    destruct (c =? "f")%char; [by destruct (strip _ _) |].
    destruct (c =? "n")%char; [by destruct (strip _ _) |].
    pose proof (parse_number_fuel (String c s')).
    by destruct (JSON.parse_number _).
  - intros s Hs. cbn [JSON.parse_elements].
    destruct (JSON.parse_value fuel s) as [v r0 | |] eqn:Hv; [| done |].
    + apply Cv in Hv. pose proof (skip_ws_length r0) as Hws.
      destruct (JSON.skip_ws r0) as [| c r1]; [done |].
      destruct (c =? ",")%char.
      { intros Hf%push_fuel. pose proof (skip_ws_length r1).
        apply IHe in Hf; [done | simpl in *; lia]. }
      by destruct (c =? "]")%char.
    + apply IHv in Hv; [done | lia].
  - intros s Hs. cbn [JSON.parse_members].
    destruct s as [| q s']; [done |]. simpl in Hs.
    destruct (q =? DQ)%char; [| done].
    pose proof (string_chars_fuel s') as Hsc.
    destruct (JSON.string_chars s') as [u r1 | |] eqn:Hu; [| done | done].
    apply string_chars_length in Hu. pose proof (skip_ws_length r1) as Hws1.
    destruct (JSON.skip_ws r1) as [| c r2]; [done |].
    destruct (c =? ":")%char; [| done].
    pose proof (skip_ws_length r2) as Hws2.
    destruct (JSON.parse_value fuel _) as [v r3 | |] eqn:Hv; [| done |].
    + apply Cv in Hv. pose proof (skip_ws_length r3) as Hws3.
      destruct (JSON.skip_ws r3) as [| c' r4]; [done |].
      destruct (c' =? ",")%char.
      { intros Hf%push_fuel. pose proof (skip_ws_length r4).
        apply IHm in Hf; [done | simpl in *; lia]. }
      by destruct (c' =? "}")%char.
    + apply IHv in Hv; [done | simpl in *; lia].
Qed.

(** [JSON.parse] answers [None] for a syntax error only. *)
Lemma parse_fuel_adequate (text : string) :
  JSON.parse_value (2 * String.length text + 2) (JSON.skip_ws text) ≠ JSON.OutOfFuel.
Proof.
  apply fuel_adequate. pose proof (skip_ws_length text). lia.
Qed.

(** ** The stream loop *)

Lemma stream_loop_from_paragraph (chunks : list string) (text : string) :
  foldl stream_step ([Paragraph text], text, false) chunks
  = ([Paragraph (text +:+ concat_strings chunks)], text +:+ concat_strings chunks, false).
Proof.
  revert text. induction chunks as [| chunk chunks IH]; intros text; simpl.
  - by rewrite append_nil_r.
  - rewrite IH. by rewrite append_assoc.
Qed.

(** When the stream ends the element holds one paragraph with everything
    received, or still the loading indicator when nothing was. *)
Lemma accumulate_spec (chunks : list string) :
  accumulate chunks
  = (match chunks with
     | [] => [Loading]
     | _ :: _ => [Paragraph (concat_strings chunks)]
     end, concat_strings chunks).
Proof.
  unfold accumulate. destruct chunks as [| chunk chunks]; [done |].
  cbn [foldl stream_step removeChild_loadingIndicator renderAsText].
  change ("" +:+ chunk) with chunk.
  by rewrite stream_loop_from_paragraph.
Qed.

Lemma parse_empty : JSON.parse "" = None.
Proof. reflexivity. Qed.

Lemma accumulate_nonempty (chunks : list string) :
  concat_strings chunks ≠ "" →
  accumulate chunks = ([Paragraph (concat_strings chunks)], concat_strings chunks).
Proof. rewrite accumulate_spec. by destruct chunks. Qed.

Lemma handleFormSubmit_unfold (chunks : list string) :
  handleFormSubmit chunks
  = dispatch (extract (concat_strings chunks) (accumulate chunks).1).1
      (concat_strings chunks)
      (extract (concat_strings chunks) (accumulate chunks).1).2.
Proof.
  unfold handleFormSubmit. rewrite accumulate_spec. simpl.
  by destruct (extract _ _).
Qed.

(** C3: when the reply does not parse as a whole and the text of its fenced
    block, if it has one, does not parse either, the message shows the reply
    as plain text, equal to everything the stream delivered. *)
Theorem C3_fallback_keeps_the_reply (chunks : list string) :
  let fullResponse := concat_strings chunks in
  JSON.parse fullResponse = None →
  (∀ g, fenced_block fullResponse = Some g → JSON.parse g = None) →
  classification (handleFormSubmit chunks) = Some (PlainText fullResponse)
  ∧ handleFormSubmit chunks = (accumulate chunks).1.
Proof.
  intros fullResponse Hwhole Hfence.
  rewrite handleFormSubmit_unfold. fold fullResponse.
  assert (renderAsText fullResponse (accumulate chunks).1 = (accumulate chunks).1
          ∨ fenced_block fullResponse = None) as Hrender.
  { rewrite accumulate_spec. destruct chunks; [by right | by left]. }
  assert (extract fullResponse (accumulate chunks).1 = (None, (accumulate chunks).1)) as ->.
  { unfold extract. rewrite Hwhole.
    destruct (fenced_block fullResponse) as [g |] eqn:Hg; [| done].
    rewrite (Hfence g eq_refl). destruct Hrender as [-> | ?]; [| done].
    by destruct (negb _). }
  simpl. split; [| done].
  rewrite accumulate_spec. by destruct chunks.
Qed.

Lemma C3_witness :
  classification (handleFormSubmit ["Hello, "; "world."]) = Some (PlainText "Hello, world.").
Proof.
  apply (C3_fallback_keeps_the_reply ["Hello, "; "world."]).
  - vm_compute. reflexivity.
  - intros g Hg. vm_compute in Hg. discriminate.
Defined.

(** C4 (as stated): the opening fence below stands at the end of a line of
    prose and the closing fence is followed by more text, so no line is
    exactly a fence; the classifier extracts the object between them all the
    same and renders it as a diagram. *)
Lemma C4_counterexample :
  JSON.parse example_inline_fence = None
  ∧ Spec.fenced_block example_inline_fence = None
  ∧ fenced_block example_inline_fence = Some (js "{'components':[],'connections':[]}")
  ∧ handleFormSubmit [example_inline_fence]
    = [DiagramRendering
         (JSON.JObject [("components", JSON.JArray []); ("connections", JSON.JArray [])])].
Proof. repeat split; vm_compute; reflexivity. Qed.

(** C4 (amended): the fenced block is looked for only when the reply does not
    parse as a whole; it is the text between the leftmost opening fence (the
    three backquotes, [json] and a line break, wherever they stand in their
    line) and the first closing fence after it (a line break and three
    backquotes, whatever follows them); that text, when not empty, is what is
    parsed. *)
Theorem C4_fence_is_searched_after_whole_parse_fails
    (fullResponse : string) (element : MessageElement) :
  (∀ v, JSON.parse fullResponse = Some v →
        extract fullResponse element = (Some v, element))
  ∧ (JSON.parse fullResponse = None →
     (∀ g, first_fence fullResponse g → g ≠ "" →
           extract fullResponse element
           = match JSON.parse g with
             | Some v => (Some v, element)
             | None => (None, renderAsText fullResponse element)
             end)
     ∧ (first_fence fullResponse "" ∨ (∀ g, ¬ first_fence fullResponse g) →
        extract fullResponse element = (None, element)))
  ∧ (∀ g, fenced_block fullResponse = Some g ↔ first_fence fullResponse g).
Proof.
  split; [| split].
  - intros v Hv. unfold extract. by rewrite Hv.
  - intros Hwhole. unfold extract. rewrite Hwhole. split.
    + intros g Hg%fenced_block_first_fence Hne. rewrite Hg.
      apply String.eqb_neq in Hne. by rewrite Hne.
    + intros [Hg%fenced_block_first_fence | Hnone].
      * by rewrite Hg.
      * destruct (fenced_block fullResponse) as [g |] eqn:Hg; [| done].
        apply fenced_block_first_fence in Hg. by destruct (Hnone g).
  - apply fenced_block_first_fence.
Qed.

Lemma C4_witness :
  extract example_inline_fence [Paragraph example_inline_fence]
  = (Some (JSON.JObject [("components", JSON.JArray []); ("connections", JSON.JArray [])]),
     [Paragraph example_inline_fence]).
Proof.
  destruct (C4_fence_is_searched_after_whole_parse_fails
              example_inline_fence [Paragraph example_inline_fence])
    as (_ & Hfence & Hiff).
  destruct Hfence as [Hfence _]; [vm_compute; reflexivity |].
  rewrite (Hfence (js "{'components':[],'connections':[]}")).
  - vm_compute. reflexivity.
  - apply Hiff. vm_compute. reflexivity.
  - discriminate.
Defined.

(** C5 (as stated): the prompt of this reply is a string, the empty one; the
    reply is shown as text and no image is asked for. *)
Lemma C5_counterexample :
  JSON.parse example_empty_prompt
  = Some (JSON.JObject [("action", JSON.JString "generate_image");
                        ("prompt", JSON.JString "")])
  ∧ handleFormSubmit [example_empty_prompt] = [Paragraph example_empty_prompt]
  ∧ classification (handleFormSubmit [example_empty_prompt])
    = Some (PlainText example_empty_prompt).
Proof. repeat split; vm_compute; reflexivity. Qed.

(** C5 (amended): a reply that parses as a whole to a value whose [action] is
    the string [generate_image] and whose [prompt] is a string that is not
    empty is an image directive carrying that prompt, whatever else the value
    holds (the test stands before the one for a diagram). *)
Theorem C5_image_directive_is_tested_first
    (chunks : list string) (v : JSON.value) (prompt : string) :
  JSON.parse (concat_strings chunks) = Some v →
  JSON.get v "action" = Some (JSON.JString "generate_image") →
  JSON.get v "prompt" = Some (JSON.JString prompt) →
  prompt ≠ "" →
  handleFormSubmit chunks = [ImageGeneration (JSON.JString prompt)]
  ∧ classification (handleFormSubmit chunks) = Some (ImageDirective (JSON.JString prompt)).
Proof.
  intros Hparse Haction Hprompt Hne.
  assert (handleFormSubmit chunks = [ImageGeneration (JSON.JString prompt)]) as ->; [| done].
  rewrite handleFormSubmit_unfold.
  assert (concat_strings chunks ≠ "") as Hfull.
  { intros Hempty. rewrite Hempty, parse_empty in Hparse. discriminate. }
  rewrite accumulate_nonempty by done. simpl.
  unfold extract. rewrite Hparse. cbn [fst snd].
  unfold dispatch.
  assert (JSON.truthy (Some v) = true) as ->.
  { destruct v; try discriminate. reflexivity. }
  rewrite Haction, Hprompt. simpl.
  apply String.eqb_neq in Hne. by rewrite Hne.
Qed.

Lemma C5_witness :
  handleFormSubmit [example_image_reply] = [ImageGeneration (JSON.JString "a red barn")]
  ∧ classification (handleFormSubmit [example_image_reply])
    = Some (ImageDirective (JSON.JString "a red barn")).
Proof.
  apply (C5_image_directive_is_tested_first [example_image_reply]
           (JSON.JObject [("action", JSON.JString "generate_image");
                          ("prompt", JSON.JString "a red barn")])).
  - vm_compute. reflexivity.
  - reflexivity.
  - reflexivity.
  - discriminate.
Defined.

(** * Further properties of the code *)

(** ** The stream and [renderAsText] *)

(** X1: once a chunk has arrived the message holds one paragraph with all the
    text received so far and nothing else (the loading indicator went with
    the first chunk), and [fullResponse] is that text. *)
Theorem X1_stream_shows_everything_received (received : list string) :
  received ≠ [] →
  foldl stream_step ([Loading], "", true) received
  = ([Paragraph (concat_strings received)], concat_strings received, false).
Proof.
  destruct received as [| chunk chunks]; [done |]. intros _.
  cbn [foldl stream_step removeChild_loadingIndicator renderAsText].
  change ("" +:+ chunk) with chunk.
  by rewrite stream_loop_from_paragraph.
Qed.

Lemma X1_witness :
  foldl stream_step ([Loading], "", true) ["Hel"; "lo"] = ([Paragraph "Hello"], "Hello", false).
Proof. apply (X1_stream_shows_everything_received ["Hel"; "lo"]). discriminate. Defined.

Lemma paragraphs_cons (node : MessageNode) (element : MessageElement) :
  paragraphs (node :: element)
  = (if is_paragraph node then 1 else 0) + paragraphs element.
Proof.
  unfold paragraphs, MessageElement. rewrite filter_cons.
  destruct node; cbn [is_paragraph]; case_decide; done.
Qed.

Lemma filter_renderAsText (text : string) (element : MessageElement) :
  filter (λ node, is_paragraph node = false) (renderAsText text element)
  = filter (λ node, is_paragraph node = false) element.
Proof.
  unfold MessageElement in *.
  induction element as [| node rest IH]; [done |].
  destruct node; cbn [renderAsText]; rewrite !filter_cons; cbn [is_paragraph];
    repeat case_decide; try done; by rewrite IH.
Qed.

(** X2: [renderAsText] writes into the first paragraph and creates one only
    when there is none: the number of paragraphs stays what it was, or
    becomes one; the other children are untouched; and of two calls in a
    row the second decides the text. *)
Theorem X2_renderAsText_keeps_one_paragraph (text text' : string) (element : MessageElement) :
  paragraphs (renderAsText text element) = Nat.max 1 (paragraphs element)
  ∧ filter (λ node, is_paragraph node = false) (renderAsText text element)
    = filter (λ node, is_paragraph node = false) element
  ∧ renderAsText text (renderAsText text' element) = renderAsText text element
  ∧ (paragraphs element = 0 → renderAsText text element = element ++ [Paragraph text]).
Proof.
  split; [| split; [apply filter_renderAsText | split]].
  - induction element as [| node rest IH]; [done |].
    destruct node; cbn [renderAsText]; rewrite !paragraphs_cons; simpl;
      rewrite ?IH; lia.
  - induction element as [| node rest IH]; [done |].
    destruct node; simpl; by rewrite ?IH.
  - induction element as [| node rest IH]; [done |].
    rewrite paragraphs_cons. destruct node; simpl; try discriminate;
      intros H; by rewrite IH.
Qed.

(** ** The classification *)

Lemma dispatch_paragraph_rest (v : JSON.value) (fullResponse : string) :
  JSON.is_string (JSON.get v "action") "generate_image" && JSON.truthy (JSON.get v "prompt")
  = false →
  JSON.truthy (JSON.get v "components") && JSON.truthy (JSON.get v "connections") = false →
  dispatch (Some v) fullResponse [Paragraph fullResponse] = [Paragraph fullResponse].
Proof.
  intros Himage Hdiagram. unfold dispatch.
  destruct (JSON.truthy (Some v)); [| done].
  by rewrite Himage, Hdiagram.
Qed.

Lemma dispatch_cases (parsedJson : option JSON.value) (fullResponse : string) :
  dispatch parsedJson fullResponse [Paragraph fullResponse] = [Paragraph fullResponse]
  ∨ (∃ prompt, dispatch parsedJson fullResponse [Paragraph fullResponse]
               = [ImageGeneration prompt])
  ∨ (∃ v, dispatch parsedJson fullResponse [Paragraph fullResponse] = [DiagramRendering v]).
Proof.
  unfold dispatch. destruct parsedJson as [v |]; [| by left].
  destruct (JSON.truthy (Some v)); [| by left]. cbn [remove_p app].
  destruct (JSON.is_string (JSON.get v "action") "generate_image"
            && JSON.truthy (JSON.get v "prompt")) eqn:Himage.
  - apply andb_true_iff in Himage as [_ Hprompt].
    destruct (JSON.get v "prompt") as [prompt |]; [| done]. right. left. eauto.
  - destruct (JSON.truthy (JSON.get v "components")
              && JSON.truthy (JSON.get v "connections"));
      [right; right; eauto | left; reflexivity].
Qed.

Lemma extract_element (fullResponse : string) :
  (extract fullResponse [Paragraph fullResponse]).2 = [Paragraph fullResponse].
Proof.
  unfold extract. destruct (JSON.parse fullResponse); [done |].
  destruct (fenced_block fullResponse) as [g |]; [| done].
  destruct (negb _); [| done]. by destruct (JSON.parse g).
Qed.

Lemma handleFormSubmit_cases (chunks : list string) :
  let element := handleFormSubmit chunks in
  (chunks = [] ∧ element = [Loading])
  ∨ (chunks ≠ [] ∧ element = [Paragraph (concat_strings chunks)])
  ∨ (chunks ≠ [] ∧ ∃ prompt, element = [ImageGeneration prompt])
  ∨ (chunks ≠ [] ∧ ∃ data, element = [DiagramRendering data]).
Proof.
  intros element. subst element. rewrite handleFormSubmit_unfold, accumulate_spec.
  destruct chunks as [| chunk chunks]; [by left |]. right.
  set (fullResponse := concat_strings (chunk :: chunks)). cbn [fst].
  pose proof (extract_element fullResponse) as Hel.
  destruct (extract fullResponse [Paragraph fullResponse]) as [parsedJson element].
  cbn [fst snd] in *. subst element.
  destruct (dispatch_cases parsedJson fullResponse) as [-> | [[prompt ->] | [v ->]]];
    [left | right; left | right; right]; split; eauto; done.
Qed.

(** X3: when [handleFormSubmit] has classified the reply, the model's
    element, with a call recorded in place of what the call goes on to put
    there, is one of four: the loading indicator alone, when no chunk came;
    one paragraph holding the whole reply; one call of
    [handleImageGeneration] and nothing else; or one call of [renderDiagram]
    and nothing else.  So at most one of the two calls is made, the streamed
    paragraph is removed before it, so that the call finds the element empty,
    and text that stays is the whole reply. *)
Theorem X3_one_action_per_reply (chunks : list string) :
  let element := handleFormSubmit chunks in
  (chunks = [] ∧ element = [Loading])
  ∨ (chunks ≠ [] ∧ element = [Paragraph (concat_strings chunks)])
  ∨ (chunks ≠ [] ∧ ∃ prompt, element = [ImageGeneration prompt] ∧ removelast element = [])
  ∨ (chunks ≠ [] ∧ ∃ data, element = [DiagramRendering data] ∧ removelast element = []).
Proof.
  intros element.
  destruct (handleFormSubmit_cases chunks)
    as [? | [? | [[? [prompt H]] | [? [data H]]]]]; [by left | by right; left | |].
  - right; right; left. split; [done |]. exists prompt. subst element. by rewrite H.
  - right; right; right. split; [done |]. exists data. subst element. by rewrite H.
Qed.

(** X4: a reply that parses as a whole to a JSON value that is neither an
    image directive nor a diagram (also [null], [0], a string, an array) is
    shown as text, equal to the reply. *)
Theorem X4_other_json_is_shown_as_text (chunks : list string) (v : JSON.value) :
  JSON.parse (concat_strings chunks) = Some v →
  JSON.is_string (JSON.get v "action") "generate_image" && JSON.truthy (JSON.get v "prompt")
  = false →
  JSON.truthy (JSON.get v "components") && JSON.truthy (JSON.get v "connections") = false →
  handleFormSubmit chunks = [Paragraph (concat_strings chunks)].
Proof.
  intros Hparse Himage Hdiagram. rewrite handleFormSubmit_unfold.
  assert (concat_strings chunks ≠ "") as Hfull.
  { intros Hempty. rewrite Hempty, parse_empty in Hparse. discriminate. }
  rewrite accumulate_nonempty by done. cbn [fst].
  unfold extract. rewrite Hparse. cbn [fst snd].
  by apply dispatch_paragraph_rest.
Qed.

Lemma X4_witness :
  handleFormSubmit [js "{'answer': 42, "; js "'components': []}"]
  = [Paragraph (js "{'answer': 42, 'components': []}")].
Proof.
  apply (X4_other_json_is_shown_as_text [js "{'answer': 42, "; js "'components': []}"]
           (JSON.JObject [("answer", JSON.JNumber (num 42)); ("components", JSON.JArray [])])).
  - vm_compute. reflexivity.
  - reflexivity.
  - reflexivity.
Defined.

Lemma extract_parsed_from (fullResponse : string) (v : JSON.value) (element : MessageElement) :
  parsed_from fullResponse v → extract fullResponse element = (Some v, element).
Proof.
  unfold extract. intros [-> | (g & -> & -> & Hg)]; [done |].
  assert (g ≠ "") as Hne%String.eqb_neq.
  { intros ->. rewrite parse_empty in Hg. discriminate. }
  by rewrite Hne, Hg.
Qed.

Lemma parsed_from_nonempty (chunks : list string) (v : JSON.value) :
  parsed_from (concat_strings chunks) v →
  accumulate chunks = ([Paragraph (concat_strings chunks)], concat_strings chunks).
Proof.
  intros Hparsed. rewrite accumulate_spec. destruct chunks; [| done].
  destruct Hparsed as [H | (g & _ & H & _)]; discriminate.
Qed.

(** A reply from which a value was parsed, by either route, is classified by
    the dispatch on that value, with the whole reply as the streamed
    paragraph. *)
Lemma handleFormSubmit_parsed (chunks : list string) (v : JSON.value) :
  parsed_from (concat_strings chunks) v →
  handleFormSubmit chunks
  = dispatch (Some v) (concat_strings chunks) [Paragraph (concat_strings chunks)].
Proof.
  intros Hparsed. rewrite handleFormSubmit_unfold.
  rewrite (parsed_from_nonempty _ _ Hparsed). cbn [fst].
  by rewrite (extract_parsed_from _ _ _ Hparsed).
Qed.

Lemma diagram_is_dispatched (chunks : list string) (v : JSON.value) :
  parsed_from (concat_strings chunks) v →
  JSON.is_string (JSON.get v "action") "generate_image" && JSON.truthy (JSON.get v "prompt")
  = false →
  JSON.truthy (JSON.get v "components") && JSON.truthy (JSON.get v "connections") = true →
  handleFormSubmit chunks = [DiagramRendering v].
Proof.
  intros Hparsed Himage Hdiagram. rewrite (handleFormSubmit_parsed _ _ Hparsed).
  unfold dispatch. rewrite Himage, Hdiagram.
  apply andb_true_iff in Hdiagram as [Hc _]. by destruct v.
Qed.

Lemma image_directive_is_dispatched (chunks : list string) (v prompt : JSON.value) :
  parsed_from (concat_strings chunks) v →
  JSON.get v "action" = Some (JSON.JString "generate_image") →
  JSON.get v "prompt" = Some prompt →
  JSON.truthy (Some prompt) = true →
  handleFormSubmit chunks = [ImageGeneration prompt].
Proof.
  intros Hparsed Haction Hprompt Htruthy. rewrite (handleFormSubmit_parsed _ _ Hparsed).
  unfold dispatch. rewrite Haction, Hprompt, Htruthy. by destruct v.
Qed.

(** X5: a reply that parses, as a whole or, failing that, in its fenced
    block, to a value with truthy [components] and [connections] that is no
    image directive is rendered as a diagram of that value, and the text
    streamed so far is removed. *)
Theorem X5_diagram_is_rendered (chunks : list string) (v : JSON.value) :
  parsed_from (concat_strings chunks) v →
  JSON.is_string (JSON.get v "action") "generate_image" && JSON.truthy (JSON.get v "prompt")
  = false →
  JSON.truthy (JSON.get v "components") && JSON.truthy (JSON.get v "connections") = true →
  handleFormSubmit chunks = [DiagramRendering v].
Proof.
  intros Hparsed Himage Hdiagram. rewrite handleFormSubmit_unfold.
  rewrite (parsed_from_nonempty _ _ Hparsed). cbn [fst].
  rewrite (extract_parsed_from _ _ _ Hparsed). cbn [fst snd].
  unfold dispatch.
  assert (JSON.truthy (Some v) = true) as ->.
  { apply andb_true_iff in Hdiagram as [Hc _].
    destruct v; try discriminate. reflexivity. }
  by rewrite Himage, Hdiagram.
Qed.

Lemma X5_witness :
  handleFormSubmit ["Here it is: ```json"; String LF (js "{'components':[],'connections':[]}");
                    String LF "``` (end)"]
  = [DiagramRendering
       (JSON.JObject [("components", JSON.JArray []); ("connections", JSON.JArray [])])].
Proof.
  apply X5_diagram_is_rendered.
  - right. exists (js "{'components':[],'connections':[]}").
    split; [vm_compute; reflexivity |]. split; vm_compute; reflexivity.
  - reflexivity.
  - reflexivity.
Defined.

(** X19: a reply that parses, as a whole or in its fenced block, to a value
    whose [action] is the string [generate_image] and whose [prompt] is
    truthy (a non-empty string, but also a number other than zero, an
    object, an array or [true]) asks for an image with that prompt, and the
    text streamed so far is removed. *)
Theorem X19_image_directive_by_either_route
    (chunks : list string) (v prompt : JSON.value) :
  parsed_from (concat_strings chunks) v →
  JSON.get v "action" = Some (JSON.JString "generate_image") →
  JSON.get v "prompt" = Some prompt →
  JSON.truthy (Some prompt) = true →
  handleFormSubmit chunks = [ImageGeneration prompt].
Proof.
  intros Hparsed Haction Hprompt Htruthy. rewrite handleFormSubmit_unfold.
  rewrite (parsed_from_nonempty _ _ Hparsed). cbn [fst].
  rewrite (extract_parsed_from _ _ _ Hparsed). cbn [fst snd].
  unfold dispatch.
  assert (JSON.truthy (Some v) = true) as ->.
  { destruct v; try discriminate. reflexivity. }
  rewrite Haction, Hprompt, Htruthy. reflexivity.
Qed.

Lemma X19_witness :
  handleFormSubmit [FENCE_OPEN; js "{'action': 'generate_image', 'prompt': 'A solar farm'}";
                    FENCE_CLOSE]
  = [ImageGeneration (JSON.JString "A solar farm")].
Proof.
  apply (X19_image_directive_by_either_route _
           (JSON.JObject [("action", JSON.JString "generate_image");
                          ("prompt", JSON.JString "A solar farm")])).
  - right. exists (js "{'action': 'generate_image', 'prompt': 'A solar farm'}").
    split; [vm_compute; reflexivity |]. split; vm_compute; reflexivity.
  - reflexivity.
  - reflexivity.
  - reflexivity.
Defined.

(** A number that binary64 rounds to zero is falsy, as a prompt and as the
    components of a diagram: both replies are shown as text. *)
Example number_too_small_is_falsy_in_the_dispatch :
  handleFormSubmit [js "{'action':'generate_image','prompt':1e-400}"]
  = [Paragraph (js "{'action':'generate_image','prompt':1e-400}")]
  ∧ handleFormSubmit [js "{'components':1e-400,'connections':[]}"]
    = [Paragraph (js "{'components':1e-400,'connections':[]}")].
Proof. split; vm_compute; reflexivity. Qed.

(** ** The fence *)

Lemma strip_fence_open_none (c : ascii) (s : string) :
  (c =? "`")%char = false → strip FENCE_OPEN (String c s) = None.
Proof.
  intros Hc. unfold FENCE_OPEN. cbn [String.append strip].
  rewrite Ascii.eqb_sym. by rewrite Hc.
Qed.

Lemma lazy_group_plain (g post : string) :
  has_char "`" g = false → lazy_group (g +:+ FENCE_CLOSE +:+ post) = Some g.
Proof.
  induction g as [| c g IH]; [done |].
  cbn [has_char]. intros [Hc Hg]%orb_false_iff.
  cbn [String.append lazy_group].
  assert (strip FENCE_CLOSE (String c (g +:+ FENCE_CLOSE +:+ post)) = None) as ->.
  { unfold FENCE_CLOSE at 1. cbn [strip].
    destruct (LF =? c)%char; [| done].
    destruct g as [| c' g']; [done |].
    cbn [String.append strip]. cbn [has_char] in Hg.
    apply orb_false_iff in Hg as [Hc' _]. rewrite Ascii.eqb_sym. by rewrite Hc'. }
  by rewrite (IH Hg).
Qed.

(** X6: a payload without a backquote that is put between the fences comes
    back as it is, whatever text without a backquote stands before the
    opening fence and whatever text follows the closing one. *)
Theorem X6_fenced_payload_round_trip (pre g post : string) :
  has_char "`" pre = false →
  has_char "`" g = false →
  fenced_block (pre +:+ FENCE_OPEN +:+ g +:+ FENCE_CLOSE +:+ post) = Some g.
Proof.
  intros Hpre Hg. induction pre as [| c pre IH].
  - change ("" +:+ FENCE_OPEN +:+ g +:+ FENCE_CLOSE +:+ post)
      with (String "`" (String "`" (String "`" (String "j" (String "s" (String "o"
             (String "n" (String LF (g +:+ FENCE_CLOSE +:+ post))))))))).
    cbn [fenced_block].
    replace (strip FENCE_OPEN _) with (Some (g +:+ FENCE_CLOSE +:+ post))
      by (symmetry; by apply strip_spec).
    cbn [mbind option_bind]. by rewrite lazy_group_plain.
  - cbn [has_char] in Hpre. apply orb_false_iff in Hpre as [Hc Hpre].
    cbn [String.append fenced_block].
    rewrite strip_fence_open_none by done. cbn [mbind option_bind]. by apply IH.
Qed.

Lemma X6_witness :
  fenced_block ("Sure." +:+ FENCE_OPEN +:+ js "{'width': 200}" +:+ FENCE_CLOSE +:+ " Done.")
  = Some (js "{'width': 200}").
Proof. apply (X6_fenced_payload_round_trip "Sure." (js "{'width': 200}") " Done."); reflexivity. Defined.

(** ** The resolver and the symbols *)

(** X7: a component whose type is none of the nine declared ones gets no
    symbol, but its group is drawn all the same, holding its label alone;
    no terminal of it resolves, so every connection that names it is left
    out. *)
Theorem X7_unknown_type_is_drawn_as_label_only
    (c : DiagramComponent.t) (m : gmap string DiagramComponent.t) (conn : DiagramConnection.t) :
  DiagramComponent.type c ∉ ComponentType →
  componentSvg c = None
  ∧ children_of (group_of c) = [label_of c]
  ∧ label_text (group_of c) = Some (DiagramComponent.label c)
  ∧ (∀ terminal, getTerminalCoords (Some c) terminal = None)
  ∧ (referenced m (DiagramConnection.from conn) = Some c
     ∨ referenced m (DiagramConnection.to conn) = Some c →
     wire_of m conn = None).
Proof.
  intros Hkind.
  assert (componentSvg c = None) as Hsvg.
  { apply undeclared_kind in Hkind as (H1 & H2 & H3 & H4 & H5 & H6 & H7 & H8 & H9).
    unfold componentSvg. by rewrite H1, H2, H3, H4, H5, H6, H7, H8, H9. }
  assert (∀ terminal, getTerminalCoords (Some c) terminal = None) as Hnull.
  { intros terminal. destruct (getTerminalCoords (Some c) terminal) eqn:Hpoint; [| done].
    destruct Hkind. eapply getTerminalCoords_is_Some. by rewrite Hpoint. }
  split; [done |]. split; [unfold group_of; by rewrite Hsvg |].
  split; [unfold label_text, group_of; by rewrite Hsvg |].
  split; [done |].
  unfold referenced, wire_of, endpoint. intros [Hc | Hc]; rewrite Hc.
  - by rewrite Hnull.
  - rewrite Hnull. by destruct (getTerminalCoords _ _).
Qed.

Lemma X7_witness :
  wire_of (componentMap [example_capacitor; example_battery])
    (DiagramConnection.mk "b1.positive" "c1.in") = None
  ∧ children_of (group_of example_capacitor) = [label_of example_capacitor].
Proof.
  destruct (X7_unknown_type_is_drawn_as_label_only example_capacitor
              (componentMap [example_capacitor; example_battery])
              (DiagramConnection.mk "b1.positive" "c1.in"))
    as (_ & Hgroup & _ & _ & Hwire).
  - intros Hin. apply (bool_decide_pack _) in Hin. vm_compute in Hin. destruct Hin.
  - split; [| exact Hgroup]. apply Hwire. right. vm_compute. reflexivity.
Defined.

(** X8: a wire is drawn for a connection exactly when both of its references
    name a component of the diagram whose type is declared; the terminal
    names play no part in that. *)
Theorem X8_wire_iff_both_components_exist
    (m : gmap string DiagramComponent.t) (conn : DiagramConnection.t) :
  is_Some (wire_of m conn)
  ↔ ∃ c1 c2,
      referenced m (DiagramConnection.from conn) = Some c1
      ∧ DiagramComponent.type c1 ∈ ComponentType
      ∧ referenced m (DiagramConnection.to conn) = Some c2
      ∧ DiagramComponent.type c2 ∈ ComponentType.
Proof.
  rewrite <- wire_of_resolves. unfold resolves, endpoint, referenced.
  rewrite !getTerminalCoords_option_is_Some.
  split.
  - intros [(c1 & ? & ?) (c2 & ? & ?)]. by exists c1, c2.
  - intros (c1 & c2 & ? & ? & ? & ?). split; eauto.
Qed.

(** ** The component map and the references *)

Lemma componentMap_snoc (components : list DiagramComponent.t) (c : DiagramComponent.t) :
  componentMap (components ++ [c]) = <[DiagramComponent.id c := c]> (componentMap components).
Proof. unfold componentMap. by rewrite foldl_app. Qed.

(** X9: the map of the components gives, for an id, the last component of
    the list with that id (a later duplicate replaces an earlier one), and
    nothing for an id no component has. *)
Theorem X9_componentMap_keeps_the_last_duplicate
    (components : list DiagramComponent.t) (i : string) :
  componentMap components !! i
  = last (filter (λ c, DiagramComponent.id c = i) components).
Proof.
  induction components as [| c components IH] using rev_ind; [done |].
  rewrite componentMap_snoc, filter_app, filter_cons, filter_nil.
  destruct (decide (DiagramComponent.id c = i)) as [<- | Hne].
  - rewrite lookup_insert_eq. by rewrite last_snoc.
  - rewrite lookup_insert_ne by done. by rewrite app_nil_r.
Qed.

(** X10: a reference [id.terminal] whose two parts hold no dot resolves the
    terminal [terminal] on the component of the map with the id [id]; it
    resolves to nothing when the map has no such component. *)
Theorem X10_reference_names_component_and_terminal
    (m : gmap string DiagramComponent.t) (id terminal : string) :
  has_dot id = false →
  has_dot terminal = false →
  endpoint m (id +:+ "." +:+ terminal) = getTerminalCoords (m !! id) (Some terminal)
  ∧ (m !! id = None → endpoint m (id +:+ "." +:+ terminal) = None).
Proof.
  intros Hid Hterminal.
  assert (endpoint m (id +:+ "." +:+ terminal) = getTerminalCoords (m !! id) (Some terminal))
    as Hend.
  { unfold endpoint. rewrite split_app_dot by done. by rewrite (split_no_dot _ Hterminal). }
  split; [done |]. intros Hnone. by rewrite Hend, Hnone.
Qed.

Lemma X10_witness :
  endpoint (componentMap [example_battery; example_transformer]) ("t1" +:+ "." +:+ "primary")
  = Some (num 10, num 10).
Proof.
  destruct (X10_reference_names_component_and_terminal
              (componentMap [example_battery; example_transformer]) "t1" "primary")
    as [Hend _]; [reflexivity | reflexivity |].
  rewrite Hend. vm_compute. reflexivity.
Defined.

(** ** The drawing as a whole *)

Lemma label_text_wire (m : gmap string DiagramComponent.t) (conn : DiagramConnection.t)
    (line : SVGNode) :
  wire_of m conn = Some line → label_text line = None.
Proof.
  unfold wire_of.
  destruct (endpoint m (DiagramConnection.from conn)), (endpoint m (DiagramConnection.to conn));
    try discriminate.
  by intros [= <-].
Qed.

Lemma label_text_group (c : DiagramComponent.t) :
  label_text (group_of c) = Some (DiagramComponent.label c).
Proof.
  unfold label_text, group_of. cbn [children_of].
  by rewrite last_snoc.
Qed.

(** X11: the drawing holds one child per connection that resolves and one
    per component, and the labels it shows are the labels of the
    components, as they are and in the order of the components. *)
Theorem X11_every_component_is_labelled (data : DiagramData.t) :
  omap label_text (svg_children data)
  = map DiagramComponent.label (DiagramData.components data)
  ∧ length (svg_children data)
    = length (omap (wire_of (componentMap (DiagramData.components data)))
                (DiagramData.connections data))
      + length (DiagramData.components data)
  ∧ length (svg_children data)
    ≤ length (DiagramData.connections data) + length (DiagramData.components data).
Proof.
  rewrite svg_children_spec.
  set (m := componentMap (DiagramData.components data)).
  assert (∀ conns, omap label_text (omap (wire_of m) conns) = []) as Hwires.
  { induction conns as [| conn conns IH]; [done |].
    cbn [omap list_omap]. destruct (wire_of m conn) as [line |] eqn:Hline; [| done].
    cbn [omap list_omap]. by rewrite (label_text_wire _ _ _ Hline). }
  assert (∀ cs, omap label_text (map group_of cs) = map DiagramComponent.label cs) as Hgroups.
  { induction cs as [| c cs IH]; [done |].
    cbn [map omap list_omap]. rewrite label_text_group. by rewrite <- IH. }
  assert (∀ conns, length (omap (wire_of m) conns) ≤ length conns) as Hle.
  { induction conns as [| conn conns IH]; [done |].
    cbn [omap list_omap]. destruct (wire_of m conn); simpl; lia. }
  split; [by rewrite omap_app, Hwires, Hgroups |].
  rewrite length_app, length_map. split; [done |].
  specialize (Hle (DiagramData.connections data)). lia.
Qed.

Lemma offset_on_symbol (c : DiagramComponent.t) (terminal : option string) :
  DiagramComponent.type c ∈ ComponentType →
  DiagramComponent.type c ≠ "bus" →
  ∃ symbol,
    componentSvg c = Some symbol
    ∧ (let offset :=
         match terminal ≫= Spec.named_offset (DiagramComponent.type c) with
         | Some offset => offset
         | None => Spec.default_offset (DiagramComponent.type c)
         end in
       (num offset.1, num offset.2) ∈ terminal_ends symbol).
Proof.
  intros H. by_kind c H; intros Hbus; try done;
    (eexists; split; [reflexivity |]);
    destruct terminal as [name |]; cbn [mbind option_bind];
    unfold Spec.named_offset; cbn [Spec.terminals String.eqb Ascii.eqb Bool.eqb List.find fst];
    repeat (destruct (String.eqb name _); cbn [fmap option_fmap option_map snd]);
    apply list_elem_of_In; vm_compute; tauto.
Qed.

(** X12: for every component of a declared type other than bus, and every
    terminal name, the point the resolver gives is the position of the
    component moved to an end of one of the lines its symbol draws as a
    terminal: wires meet the symbols where these show their terminals. *)
Theorem X12_terminals_are_ends_of_terminal_lines
    (c : DiagramComponent.t) (terminal : option string) :
  DiagramComponent.type c ∈ ComponentType →
  DiagramComponent.type c ≠ "bus" →
  ∃ symbol offset,
    componentSvg c = Some symbol
    ∧ offset ∈ terminal_ends symbol
    ∧ getTerminalCoords (Some c) terminal
      = Some ((DiagramComponent.x c + offset.1)%js, (DiagramComponent.y c + offset.2)%js).
Proof.
  intros Hkind Hbus. rewrite getTerminalCoords_declared by done.
  destruct (offset_on_symbol c terminal Hkind Hbus) as (symbol & Hsymbol & Hin).
  eexists symbol, _. split; [exact Hsymbol |]. split; [exact Hin |]. reflexivity.
Qed.

Lemma X12_witness :
  ∃ offset,
    offset ∈ terminal_ends drawTransformer
    ∧ getTerminalCoords (Some example_transformer) (Some "primary")
      = Some ((num 10 + offset.1)%js, (num 40 + offset.2)%js).
Proof.
  destruct (X12_terminals_are_ends_of_terminal_lines example_transformer (Some "primary"))
    as (symbol & offset & Hsymbol & Hin & Hpoint).
  - declared_kind.
  - discriminate.
  - injection Hsymbol as <-. exists offset. split; [exact Hin | exact Hpoint].
Defined.

(** ** The form: what is sent, and the page afterwards *)

Lemma trimStart_blank (s : string) :
  forallb is_space1 (list_ascii_of_string s) = true → trimStart s = "".
Proof.
  induction s as [| c s IH]; [done |].
  cbn [list_ascii_of_string forallb trimStart].
  intros [Hc Hs]%andb_true_iff. rewrite Hc. by apply IH.
Qed.

Lemma trim_blank (s : string) :
  forallb is_space1 (list_ascii_of_string s) = true → trim s = "".
Proof. intros H. unfold trim. by rewrite trimStart_blank. Qed.

Lemma sent_or_not (value : string) (chunks : list string) (stream_end : Page.StreamEnd)
    (image_end : Page.ImageEnd) (p : Page.t) :
  (Page.chat p = false ∨ (trim value = "" ∧ Page.selectedFile p = None))
  ∧ Page.handleFormSubmit value chunks stream_end image_end p = (p, None)
  ∨ (Page.chat p = true ∧ (trim value ≠ "" ∨ is_Some (Page.selectedFile p)))
    ∧ (Page.handleFormSubmit value chunks stream_end image_end p).2
      = Some (Page.messageParts (trim value) (Page.selectedFile p)).
Proof.
  unfold Page.handleFormSubmit.
  destruct (Page.chat p); cbn [negb]; [| left; split; [by left | done]].
  destruct (String.eqb_spec (trim value) "") as [Hempty | Hne].
  - destruct (Page.selectedFile p) as [selected |] eqn:Hselected.
    + right. split; [split; [done | right; eauto] |].
      rewrite bool_decide_eq_true_2 by eauto. done.
    + left. split; [right; done |].
      rewrite bool_decide_eq_false_2 by (intros [? ?]; discriminate). done.
  - right. split; [split; [done | by left] | done].
Qed.

(** X13: nothing is sent, and the page is left as it was, exactly when the
    chat session is missing or the trimmed text of the input is empty and no
    file is selected; a text of blanks, tabs and line breaks trims to the
    empty text. *)
Theorem X13_empty_submission_does_nothing
    (value : string) (chunks : list string) (stream_end : Page.StreamEnd)
    (image_end : Page.ImageEnd) (p : Page.t) :
  ((Page.handleFormSubmit value chunks stream_end image_end p).2 = None
   ↔ Page.chat p = false ∨ (trim value = "" ∧ Page.selectedFile p = None))
  ∧ ((Page.handleFormSubmit value chunks stream_end image_end p).2 = None →
     (Page.handleFormSubmit value chunks stream_end image_end p).1 = p)
  ∧ (forallb is_space1 (list_ascii_of_string value) = true → trim value = "").
Proof.
  destruct (sent_or_not value chunks stream_end image_end p) as [[Hcond Heq] | [[Hchat Hcontent] Heq]].
  - rewrite Heq. split; [by split |]. split; [done | apply trim_blank].
  - rewrite Heq. split; [| split; [done | apply trim_blank]].
    split; [done |]. intros [Hno | [Hempty Hfile]].
    + congruence.
    + destruct Hcontent as [? | [? Hsome]]; congruence.
Qed.

(** X14: when a message is sent, the function leaves the three controls of
    the form enabled, the selection cleared, the file input emptied and the
    preview hidden, whether the stream ended well or with an error. *)
Theorem X14_form_is_enabled_again
    (value : string) (chunks : list string) (stream_end : Page.StreamEnd)
    (image_end : Page.ImageEnd) (p : Page.t) :
  Page.chat p = true →
  trim value ≠ "" ∨ is_Some (Page.selectedFile p) →
  let p' := (Page.handleFormSubmit value chunks stream_end image_end p).1 in
  Page.promptInput_disabled p' = false
  ∧ Page.formButton_disabled p' = false
  ∧ Page.fileInput_disabled p' = false
  ∧ Page.selectedFile p' = None
  ∧ Page.fileInput_value p' = ""
  ∧ Page.filePreviewContainer_hidden p' = true.
Proof.
  intros Hchat Hcontent. unfold Page.handleFormSubmit. rewrite Hchat. cbn [negb].
  assert (String.eqb (trim value) "" && negb (bool_decide (is_Some (Page.selectedFile p)))
          = false) as ->.
  { destruct Hcontent as [Hne%String.eqb_neq | Hsome]; [by rewrite Hne |].
    rewrite (bool_decide_eq_true_2 _ Hsome). apply andb_false_r. }
  repeat split.
Qed.

Lemma X14_witness :
  Page.promptInput_disabled
    (Page.handleFormSubmit " hello " ["Hi"] Page.Failed Page.Generated example_page).1 = false.
Proof.
  destruct (X14_form_is_enabled_again " hello " ["Hi"] Page.Failed Page.Generated example_page)
    as (H & _).
  - reflexivity.
  - left. vm_compute. discriminate.
  - exact H.
Defined.

Lemma chatContainer_after_submit
    (value : string) (chunks : list string) (stream_end : Page.StreamEnd)
    (image_end : Page.ImageEnd) (p : Page.t) :
  Page.chat p = true →
  trim value ≠ "" ∨ is_Some (Page.selectedFile p) →
  Page.chatContainer (Page.handleFormSubmit value chunks stream_end image_end p).1
  = (Page.chatContainer p
     ++ [Page.createMessage Page.user (trim value) (Page.base64 <$> Page.selectedFile p)])
    ++ match Page.reply chunks stream_end image_end with
       | Some (element, added) => Page.mkMessage Page.model None element false :: added
       | None => [Page.mkMessage Page.model None [Paragraph Page.ERROR_NOTICE] true]
       end.
Proof.
  intros Hchat Hcontent. unfold Page.handleFormSubmit. rewrite Hchat. cbn [negb].
  assert (String.eqb (trim value) "" && negb (bool_decide (is_Some (Page.selectedFile p)))
          = false) as ->.
  { destruct Hcontent as [Hne%String.eqb_neq | Hsome]; [by rewrite Hne |].
    rewrite (bool_decide_eq_true_2 _ Hsome). apply andb_false_r. }
  cbn [fst]. destruct (Page.reply chunks stream_end image_end) as [[element added] |];
    reflexivity.
Qed.

Lemma reply_of_text (chunks : list string) (image_end : Page.ImageEnd) (text : string) :
  handleFormSubmit chunks = [Paragraph text] →
  Page.reply chunks Page.Completed image_end = Some ([Paragraph text], []).
Proof. intros H. unfold Page.reply. by rewrite H. Qed.

Lemma reply_of_image (chunks : list string) (image_end : Page.ImageEnd) (prompt : JSON.value) :
  handleFormSubmit chunks = [ImageGeneration prompt] →
  Page.reply chunks Page.Completed image_end
  = Page.handleImageGeneration true prompt image_end [].
Proof. intros H. unfold Page.reply. by rewrite H. Qed.

Lemma reply_of_diagram (chunks : list string) (image_end : Page.ImageEnd) (data : JSON.value) :
  handleFormSubmit chunks = [DiagramRendering data] →
  Page.reply chunks Page.Completed image_end
  = if renderDiagram_throws data then None else Some ([DiagramRendering data], []).
Proof. intros H. unfold Page.reply. by rewrite H. Qed.

(** X15: a failed stream leaves no part of the reply: the chat grows by the
    user's message and the error notice and nothing else, whatever chunks had
    arrived.  When the stream completes and the reply is shown as text, the
    chat grows by the user's message and the model's, which holds the whole
    reply as its one paragraph; when it completes without a chunk, the
    model's message keeps the loading indicator. *)
Theorem X15_chat_after_submit
    (value : string) (chunks : list string) (image_end : Page.ImageEnd) (p : Page.t) :
  Page.chat p = true →
  trim value ≠ "" ∨ is_Some (Page.selectedFile p) →
  let before :=
    Page.chatContainer p
    ++ [Page.createMessage Page.user (trim value) (Page.base64 <$> Page.selectedFile p)] in
  let after stream_end :=
    Page.chatContainer (Page.handleFormSubmit value chunks stream_end image_end p).1 in
  after Page.Failed = before ++ [Page.mkMessage Page.model None [Paragraph Page.ERROR_NOTICE] true]
  ∧ (∀ text, handleFormSubmit chunks = [Paragraph text] →
       text = concat_strings chunks
       ∧ after Page.Completed = before ++ [Page.mkMessage Page.model None [Paragraph text] false])
  ∧ (chunks = [] →
     after Page.Completed = before ++ [Page.mkMessage Page.model None [Loading] false]).
Proof.
  intros Hchat Hcontent before after. subst before after. cbn beta.
  rewrite !chatContainer_after_submit by done.
  split; [done |]. split.
  - intros text Htext. rewrite (reply_of_text _ _ _ Htext). split; [| done].
    destruct (handleFormSubmit_cases chunks)
      as [[_ H] | [[_ H] | [[_ [? H]] | [_ [? H]]]]]; congruence.
  - intros ->. reflexivity.
Qed.

Lemma X15_witness :
  Page.chatContainer
    (Page.handleFormSubmit " hello " ["Hi"; " there"] Page.Failed Page.Generated example_page).1
  = [Page.mkMessage Page.user None [Paragraph "hello"] false;
     Page.mkMessage Page.model None [Paragraph Page.ERROR_NOTICE] true]
  ∧ Page.chatContainer
      (Page.handleFormSubmit " hello " ["Hi"; " there"] Page.Completed Page.Generated
         example_page).1
    = [Page.mkMessage Page.user None [Paragraph "hello"] false;
       Page.mkMessage Page.model None [Paragraph "Hi there"] false].
Proof.
  destruct (X15_chat_after_submit " hello " ["Hi"; " there"] Page.Generated example_page)
    as (Hfailed & Htext & _).
  - reflexivity.
  - left. vm_compute. discriminate.
  - split.
    + rewrite Hfailed. vm_compute. reflexivity.
    + destruct (Htext "Hi there") as [_ ->]; vm_compute; reflexivity.
Defined.

(** ** The image request *)

(** X20: for a reply that is an image directive, when the stream completes:
    if the image is generated the model's message holds the image and
    nothing else; if the request fails the model's message stays in the chat,
    emptied, and the notice that the image could not be created follows it
    as a third message; and if the prompt is a value that has no text form,
    writing the status line throws, and the chat ends with the general error
    notice in place of the model's message. *)
Theorem X20_image_request_outcomes
    (value : string) (chunks : list string) (v prompt : JSON.value) (p : Page.t) :
  Page.chat p = true →
  trim value ≠ "" ∨ is_Some (Page.selectedFile p) →
  parsed_from (concat_strings chunks) v →
  JSON.get v "action" = Some (JSON.JString "generate_image") →
  JSON.get v "prompt" = Some prompt →
  JSON.truthy (Some prompt) = true →
  let before :=
    Page.chatContainer p
    ++ [Page.createMessage Page.user (trim value) (Page.base64 <$> Page.selectedFile p)] in
  let after image_end :=
    Page.chatContainer (Page.handleFormSubmit value chunks Page.Completed image_end p).1 in
  (unprintable prompt = false →
   after Page.Generated
   = before ++ [Page.mkMessage Page.model None [ImageGeneration prompt] false]
   ∧ after Page.Rejected
     = before ++ [Page.mkMessage Page.model None [] false;
                  Page.mkMessage Page.model None [Paragraph Page.IMAGE_ERROR_NOTICE] true])
  ∧ (unprintable prompt = true →
     ∀ image_end,
       after image_end
       = before ++ [Page.mkMessage Page.model None [Paragraph Page.ERROR_NOTICE] true])
  ∧ (∀ text, prompt = JSON.JString text → unprintable prompt = false).
Proof.
  intros Hchat Hcontent Hparsed Haction Hprompt Htruthy before after.
  subst before after. cbn beta.
  pose proof (image_directive_is_dispatched _ _ _ Hparsed Haction Hprompt Htruthy) as Hcall.
  split; [| split].
  - intros Hprintable. rewrite !chatContainer_after_submit by done.
    rewrite !(reply_of_image _ _ _ Hcall). unfold Page.handleImageGeneration.
    rewrite Hprintable. done.
  - intros Hunprintable image_end. rewrite chatContainer_after_submit by done.
    rewrite (reply_of_image _ _ _ Hcall). unfold Page.handleImageGeneration.
    by rewrite Hunprintable.
  - by intros text ->.
Qed.

Lemma X20_witness :
  Page.chatContainer
    (Page.handleFormSubmit "a barn, please" [example_image_reply] Page.Completed Page.Rejected
       example_page).1
  = [Page.mkMessage Page.user None [Paragraph "a barn, please"] false;
     Page.mkMessage Page.model None [] false;
     Page.mkMessage Page.model None [Paragraph Page.IMAGE_ERROR_NOTICE] true].
Proof.
  destruct (X20_image_request_outcomes "a barn, please" [example_image_reply]
              (JSON.JObject [("action", JSON.JString "generate_image");
                             ("prompt", JSON.JString "a red barn")])
              (JSON.JString "a red barn") example_page) as [H _].
  - reflexivity.
  - left. vm_compute. discriminate.
  - left. vm_compute. reflexivity.
  - reflexivity.
  - reflexivity.
  - reflexivity.
  - destruct H as [_ ->]; [reflexivity |]. vm_compute. reflexivity.
Defined.

(** ** The diagram on an unchecked value *)

Lemma componentMap_get_elem (components : list JSON.value) (id : string) (c : JSON.value) :
  componentMap_get components id = Some c → In c components.
Proof.
  unfold componentMap_get. intros H%last_Some_elem_of.
  apply list_elem_of_filter in H as [_ H]. by apply list_elem_of_In.
Qed.

Lemma getTerminalCoords_unchecked_of_shape (c : JSON.value) :
  is_DiagramComponent c = true →
  getTerminalCoords_unchecked (Some c) = Null
  ∨ getTerminalCoords_unchecked (Some c) = Point false false.
Proof.
  destruct c as [| | | | | members]; try discriminate.
  unfold is_DiagramComponent, getTerminalCoords_unchecked.
  cbn [JSON.truthy negb].
  intros (((((_ & _)%andb_true_iff & Hx)%andb_true_iff & Hy)%andb_true_iff
           & _)%andb_true_iff & _)%andb_true_iff.
  destruct (JSON.get (JSON.JObject members) "x") as [[] |]; try discriminate.
  destruct (JSON.get (JSON.JObject members) "y") as [[] |]; try discriminate.
  cbn [conversion_throws toString_throws unprintable].
  destruct (_ || _); [by right |]. destruct (_ || _); [by right | by left].
Qed.

Lemma connection_throws_of_shape (components : list JSON.value) (conn : JSON.value) :
  forallb is_DiagramComponent components = true →
  is_DiagramConnection conn = true →
  connection_throws components conn = false.
Proof.
  intros Hcomponents [Hfrom Hto]%andb_true_iff. unfold connection_throws.
  destruct (JSON.get conn "from") as [[| | | from | |] |]; try discriminate.
  destruct (JSON.get conn "to") as [[| | | to | |] |]; try discriminate.
  assert (∀ reference,
            let coords :=
              getTerminalCoords_unchecked
                (split "." reference !! 0%nat ≫= componentMap_get components) in
            coords = Null ∨ coords = Point false false) as Hcoords.
  { intros reference. cbn zeta.
    destruct (split "." reference !! 0%nat ≫= componentMap_get components) as [c |] eqn:Hc;
      [| by left].
    apply getTerminalCoords_unchecked_of_shape.
    destruct (split "." reference !! 0%nat) as [id |]; [| discriminate].
    apply componentMap_get_elem in Hc.
    by apply (proj1 (forallb_forall _ _) Hcomponents). }
  destruct (Hcoords from) as [-> | ->], (Hcoords to) as [-> | ->]; reflexivity.
Qed.

Lemma component_throws_of_shape (c : JSON.value) :
  is_DiagramComponent c = true → component_throws c = false.
Proof.
  destruct c as [| | | | | members]; try discriminate.
  unfold is_DiagramComponent, component_throws.
  intros (((((_ & _)%andb_true_iff & Hx)%andb_true_iff & Hy)%andb_true_iff
           & Hlabel)%andb_true_iff & Hwidth)%andb_true_iff.
  destruct (JSON.get (JSON.JObject members) "x") as [[] |]; try discriminate.
  destruct (JSON.get (JSON.JObject members) "y") as [[] |]; try discriminate.
  destruct (JSON.get (JSON.JObject members) "label") as [[] |]; try discriminate.
  destruct (JSON.get (JSON.JObject members) "width") as [[] |]; try discriminate;
    cbn [conversion_throws unprintable orb andb]; by rewrite ?andb_false_r.
Qed.

Lemma existsb_false {A} (f : A → bool) (l : list A) :
  (∀ x, In x l → f x = false) → existsb f l = false.
Proof.
  intros H. destruct (existsb f l) eqn:Hex; [| done].
  apply existsb_exists in Hex as (x & Hin & Hx). by rewrite (H x Hin) in Hx.
Qed.

Lemma renderDiagram_throws_of_shape (data : JSON.value) :
  is_DiagramData data = true → renderDiagram_throws data = false.
Proof.
  unfold is_DiagramData, renderDiagram_throws.
  intros [[Hwidth Hheight]%andb_true_iff Hlists]%andb_true_iff.
  destruct (JSON.get data "width") as [[] |]; try discriminate.
  destruct (JSON.get data "height") as [[] |]; try discriminate.
  destruct (JSON.get data "components") as [[| | | | components |] |]; try discriminate.
  destruct (JSON.get data "connections") as [[| | | | connections |] |]; try discriminate.
  apply andb_true_iff in Hlists as [Hcomponents Hconnections].
  cbn [conversion_throws unprintable orb].
  rewrite !existsb_false; [done | | |].
  - intros c Hc. by apply component_throws_of_shape, (proj1 (forallb_forall _ _) Hcomponents).
  - intros conn Hconn. apply connection_throws_of_shape; [done |].
    by apply (proj1 (forallb_forall _ _) Hconnections).
  - intros c Hc. apply (proj1 (forallb_forall _ _) Hcomponents) in Hc.
    by destruct c.
Qed.

(** X21: for a reply that is classified as a diagram, when the stream
    completes: if [renderDiagram] returns, the model's message holds the
    diagram and nothing else; if it throws, the chat ends with the general
    error notice in place of the model's message.  It returns whenever the
    value has the shape of [DiagramData]; it throws when [components] is not
    an array or holds [null], and when [connections] is not an array. *)
Theorem X21_diagram_outcomes
    (value : string) (chunks : list string) (v : JSON.value) (image_end : Page.ImageEnd)
    (p : Page.t) :
  Page.chat p = true →
  trim value ≠ "" ∨ is_Some (Page.selectedFile p) →
  parsed_from (concat_strings chunks) v →
  JSON.is_string (JSON.get v "action") "generate_image" && JSON.truthy (JSON.get v "prompt")
  = false →
  JSON.truthy (JSON.get v "components") && JSON.truthy (JSON.get v "connections") = true →
  let before :=
    Page.chatContainer p
    ++ [Page.createMessage Page.user (trim value) (Page.base64 <$> Page.selectedFile p)] in
  let after :=
    Page.chatContainer (Page.handleFormSubmit value chunks Page.Completed image_end p).1 in
  (renderDiagram_throws v = false →
   after = before ++ [Page.mkMessage Page.model None [DiagramRendering v] false])
  ∧ (renderDiagram_throws v = true →
     after = before ++ [Page.mkMessage Page.model None [Paragraph Page.ERROR_NOTICE] true])
  ∧ (is_DiagramData v = true → renderDiagram_throws v = false)
  ∧ ((∀ components, JSON.get v "components" ≠ Some (JSON.JArray components)) →
     renderDiagram_throws v = true)
  ∧ (∀ components, JSON.get v "components" = Some (JSON.JArray components) →
       In JSON.JNull components → renderDiagram_throws v = true)
  ∧ (∀ connections, JSON.get v "connections" = Some connections →
       (∀ elements, connections ≠ JSON.JArray elements) →
       renderDiagram_throws v = true).
Proof.
  intros Hchat Hcontent Hparsed Himage Hdiagram before after. subst before after.
  pose proof (diagram_is_dispatched _ _ Hparsed Himage Hdiagram) as Hcall.
  rewrite chatContainer_after_submit by done. rewrite (reply_of_diagram _ _ _ Hcall).
  split; [by intros -> |]. split; [by intros -> |].
  split; [apply renderDiagram_throws_of_shape |].
  unfold renderDiagram_throws. split; [| split].
  - intros Hnone. destruct (JSON.get v "components") as [[| | | | components |] |];
      rewrite ?orb_true_r; try done. by destruct (Hnone components).
  - intros components -> Hnull.
    assert (existsb (λ c, match c with JSON.JNull => true | _ => false end) components = true)
      as ->; [| by rewrite ?orb_true_r].
    apply existsb_exists. by exists JSON.JNull.
  - intros connections Hconnections Hnone.
    destruct (JSON.get v "components") as [[| | | | components |] |];
      rewrite ?orb_true_r; try done.
    rewrite Hconnections in *. apply andb_true_iff in Hdiagram as [_ Htruthy].
    destruct connections as [| | | text | elements |]; rewrite ?orb_true_r; try done.
    + cbn [JSON.truthy] in Htruthy. rewrite Htruthy. by rewrite ?orb_true_r.
    + by destruct (Hnone elements).
Qed.

Lemma X21_witness :
  Page.chatContainer
    (Page.handleFormSubmit "draw it" [example_diagram_reply] Page.Completed Page.Generated
       example_page).1
  = [Page.mkMessage Page.user None [Paragraph "draw it"] false;
     Page.mkMessage Page.model None [DiagramRendering example_diagram_value] false]
  ∧ Page.chatContainer
      (Page.handleFormSubmit "draw it" [example_no_diagram_reply] Page.Completed Page.Generated
         example_page).1
    = [Page.mkMessage Page.user None [Paragraph "draw it"] false;
       Page.mkMessage Page.model None [Paragraph Page.ERROR_NOTICE] true].
Proof.
  split.
  - destruct (X21_diagram_outcomes "draw it" [example_diagram_reply] example_diagram_value
                Page.Generated example_page) as (Hdrawn & _ & Hshape & _).
    + reflexivity.
    + left. vm_compute. discriminate.
    + left. vm_compute. reflexivity.
    + reflexivity.
    + reflexivity.
    + rewrite Hdrawn; [vm_compute; reflexivity |]. apply Hshape. reflexivity.
  - destruct (X21_diagram_outcomes "draw it" [example_no_diagram_reply]
                (JSON.JObject [("components", JSON.JString "none");
                               ("connections", JSON.JArray [])])
                Page.Generated example_page) as (_ & Hnotice & _ & Hthrows & _).
    + reflexivity.
    + left. vm_compute. discriminate.
    + left. vm_compute. reflexivity.
    + reflexivity.
    + reflexivity.
    + rewrite Hnotice; [vm_compute; reflexivity |]. apply Hthrows. discriminate.
Defined.

(** A wire whose end is a coordinate passed on as it is needs that coordinate:
    without an [x], the battery of this diagram makes [renderDiagram] throw
    once a connection reaches it, and not before. *)
Example renderDiagram_needs_the_coordinates_of_a_wire :
  let battery := JSON.JObject [("id", JSON.JString "b1"); ("type", JSON.JString "battery");
                               ("y", JSON.JNumber (num 50))] in
  let diagram connections :=
    JSON.JObject [("components", JSON.JArray [battery]);
                  ("connections", JSON.JArray connections)] in
  renderDiagram_throws (diagram []) = false
  ∧ renderDiagram_throws
      (diagram [JSON.JObject [("from", JSON.JString "b1"); ("to", JSON.JString "nowhere")]])
    = false
  ∧ renderDiagram_throws
      (diagram [JSON.JObject [("from", JSON.JString "b1"); ("to", JSON.JString "b1.negative")]])
    = true.
Proof. repeat split. Qed.

Lemma split_no_sep (sep : ascii) (s : string) : has_char sep s = false → split sep s = [s].
Proof.
  induction s as [| c r IH]; [done |]. cbn [has_char split].
  intros [Hc Hr]%orb_false_iff. by rewrite Hc, (IH Hr).
Qed.

Lemma split_app_sep (sep : ascii) (a b : string) :
  has_char sep a = false →
  split sep (a +:+ String sep b) = a :: split sep b.
Proof.
  induction a as [| c r IH].
  - intros _. cbn [String.append split]. by rewrite Ascii.eqb_refl.
  - cbn [has_char String.append split].
    intros [Hc Hr]%orb_false_iff. by rewrite Hc, (IH Hr).
Qed.

(** X16: the message that is sent has the text first, when there is one, and
    then the file, when one is selected, so one or two parts.  Of a data URL
    made of a header, a comma and a payload (neither holding a comma) the
    payload is what is sent, with the type of the file; a text without a
    comma leaves the data undefined. *)
Theorem X16_parts_of_the_message
    (prompt : string) (f : Page.File) (header payload mime : string) :
  has_char "," header = false →
  has_char "," payload = false →
  Page.messageParts prompt (Some (Page.mkSelectedFile f (header +:+ String "," payload) mime))
  = (if String.eqb prompt "" then [] else [Page.TextPart prompt])
    ++ [Page.InlineData (Some payload) mime]
  ∧ Page.messageParts prompt (Some (Page.mkSelectedFile f header mime))
    = (if String.eqb prompt "" then [] else [Page.TextPart prompt])
      ++ [Page.InlineData None mime]
  ∧ (prompt ≠ "" → Page.messageParts prompt None = [Page.TextPart prompt]).
Proof.
  intros Hheader Hpayload. unfold Page.messageParts. cbn [Page.base64 Page.mimeType].
  rewrite split_app_sep by done. rewrite !split_no_sep by done.
  split; [done |]. split; [done |].
  intros Hne%String.eqb_neq. by rewrite Hne.
Qed.

Lemma X16_witness :
  Page.messageParts "What is this?"
    (Some (Page.mkSelectedFile (Page.mkFile "panel.png" "image/png")
             ("data:image/png;base64" +:+ String "," "iVBORw0KGgo=") "image/png"))
  = [Page.TextPart "What is this?"; Page.InlineData (Some "iVBORw0KGgo=") "image/png"].
Proof.
  destruct (X16_parts_of_the_message "What is this?" (Page.mkFile "panel.png" "image/png")
              "data:image/png;base64" "iVBORw0KGgo=" "image/png") as [H _];
    [reflexivity | reflexivity |].
  rewrite H. reflexivity.
Defined.

(** X17: after an image file is chosen, a submission with a blank text sends
    one part, the payload of the file's data URL with the file's type, and
    shows the image, without a paragraph, as the user's message. *)
Theorem X17_chosen_image_is_sent
    (f : Page.File) (header payload value : string) (chunks : list string)
    (stream_end : Page.StreamEnd)
    (image_end : Page.ImageEnd) (p : Page.t) :
  Page.chat p = true →
  is_Some (strip "image/" (Page.type f)) →
  has_char "," header = false →
  has_char "," payload = false →
  trim value = "" →
  let url := header +:+ String "," payload in
  let p1 := Page.handleFileSelect (Some (f, url)) p in
  (Page.handleFormSubmit value chunks stream_end image_end p1).2
  = Some [Page.InlineData (Some payload) (Page.type f)]
  ∧ Page.chatContainer (Page.handleFormSubmit value chunks stream_end image_end p1).1 !! length (Page.chatContainer p)
    = Some (Page.mkMessage Page.user (Some (url, "User uploaded image")) [] false)
  ∧ Page.filePreviewName_textContent p1 = Page.name f
  ∧ Page.filePreviewContainer_hidden p1 = false.
Proof.
  intros Hchat [rest Himage] Hheader Hpayload Hvalue url p1.
  assert (Page.selectedFile p1 = Some (Page.mkSelectedFile f url (Page.type f))) as Hselected.
  { subst p1. unfold Page.handleFileSelect. by rewrite Himage. }
  assert (Page.chat p1 = true) as Hchat1.
  { subst p1. unfold Page.handleFileSelect. by rewrite Himage. }
  assert (Page.chatContainer p1 = Page.chatContainer p) as Hcontainer.
  { subst p1. unfold Page.handleFileSelect. by rewrite Himage. }
  split; [| split; [| split]].
  - destruct (sent_or_not value chunks stream_end image_end p1) as [[Hcond _] | [_ ->]].
    + destruct Hcond as [? | [_ ?]]; congruence.
    + rewrite Hselected, Hvalue. unfold url.
      unfold Page.messageParts. cbn [Page.base64 Page.mimeType String.eqb app].
      rewrite split_app_sep by done. by rewrite split_no_sep.
  - rewrite chatContainer_after_submit by (rewrite ?Hselected; eauto).
    rewrite Hcontainer, Hselected, Hvalue.
    rewrite lookup_app_l by (rewrite length_app; simpl; lia).
    rewrite lookup_app_r by lia. rewrite Nat.sub_diag.
    cbn [lookup list_lookup fmap option_fmap option_map].
    unfold Page.createMessage. cbn [Page.base64 String.eqb].
    assert (String.eqb url "" = false) as ->; [| done].
    subst url. by destruct header.
  - subst p1. unfold Page.handleFileSelect. by rewrite Himage.
  - subst p1. unfold Page.handleFileSelect. by rewrite Himage.
Qed.

Lemma X17_witness :
  (Page.handleFormSubmit "  " [] Page.Completed Page.Generated
     (Page.handleFileSelect
        (Some (Page.mkFile "panel.png" "image/png",
               "data:image/png;base64" +:+ String "," "iVBORw0KGgo=")) example_page)).2
  = Some [Page.InlineData (Some "iVBORw0KGgo=") "image/png"].
Proof.
  destruct (X17_chosen_image_is_sent (Page.mkFile "panel.png" "image/png")
              "data:image/png;base64" "iVBORw0KGgo=" "  " [] Page.Completed Page.Generated example_page)
    as [H _].
  - reflexivity.
  - vm_compute. eauto.
  - reflexivity.
  - reflexivity.
  - reflexivity.
  - exact H.
Defined.

(** X18: choosing a file whose type does not start with [image/], or no file,
    drops an earlier selection and hides the preview, and leaves the chat and
    the controls alone; a submission with a blank text then sends nothing. *)
Theorem X18_other_file_clears_the_selection
    (chosen : option (Page.File * string)) (value : string) (chunks : list string)
    (stream_end : Page.StreamEnd)
    (image_end : Page.ImageEnd) (p : Page.t) :
  (∀ f url, chosen = Some (f, url) → strip "image/" (Page.type f) = None) →
  trim value = "" →
  let p1 := Page.handleFileSelect chosen p in
  Page.selectedFile p1 = None
  ∧ Page.filePreviewContainer_hidden p1 = true
  ∧ Page.chatContainer p1 = Page.chatContainer p
  ∧ Page.fileInput_value p1 = Page.fileInput_value p
  ∧ Page.handleFormSubmit value chunks stream_end image_end p1 = (p1, None).
Proof.
  intros Hother Hvalue p1.
  assert (p1 = Page.updateFilePreview (Page.set_selectedFile None p)) as Hp1.
  { subst p1. unfold Page.handleFileSelect. destruct chosen as [[f url] |]; [| done].
    by rewrite (Hother f url eq_refl). }
  assert (Page.selectedFile p1 = None) as Hselected by (by rewrite Hp1).
  split; [done |]. split; [by rewrite Hp1 |]. split; [by rewrite Hp1 |].
  split; [by rewrite Hp1 |].
  destruct (sent_or_not value chunks stream_end image_end p1) as [[_ ->] | [[_ Hcontent] _]]; [done |].
  destruct Hcontent as [? | [? Hsome]]; congruence.
Qed.

Lemma X18_witness :
  Page.handleFormSubmit "  " ["Hi"] Page.Completed Page.Generated
    (Page.handleFileSelect (Some (Page.mkFile "notes.txt" "text/plain", "data:text/plain;base64,QQ=="))
       example_page_with_file)
  = (Page.handleFileSelect (Some (Page.mkFile "notes.txt" "text/plain", "data:text/plain;base64,QQ=="))
       example_page_with_file, None).
Proof.
  apply (X18_other_file_clears_the_selection
           (Some (Page.mkFile "notes.txt" "text/plain", "data:text/plain;base64,QQ=="))
           "  " ["Hi"] Page.Completed Page.Generated example_page_with_file).
  - intros f url [= <- _]. reflexivity.
  - reflexivity.
Defined.
